(** * A structured-logging facade over zap, with HTTP and RPC interceptors

    Shallow embedding of [logger.go] (package [logger]).

    The package is a thin layer over three libraries: [go.uber.org/zap]
    (the logging engine), [gin] (the HTTP framework) and [grpc].  The
    functions of the package itself ([New], [NewDefault], [With], [Named],
    [GinLogger], [GRPCLoggingInterceptor], [WithContext]) are translated
    line by line.  What they call in the libraries is modelled in the
    modules [zapcore], [zap], [context], [gin] and [grpc] below, as far as
    the package observes it: level parsing, the encoder presets, the
    construction of a logger from a [zap.Config], standing fields, the
    level gate, the sampler and the record that reaches the sinks.
    [Sync] forwards to the engine's flush; what syncing a sink gives is a
    parameter of it.  Calls are modelled one at a time; concurrent use is
    left to the engine.

    Go values are modelled as follows.
    - A [*Logger] is an address ([ptr], [nil] or an index) into a heap of
      logger objects; [&Logger{...}] allocates a fresh cell.  The cell holds
      the state of the embedded [*zap.SugaredLogger].
    - A function with effects is a function from the program state to an
      [Outcome]: it returns a value, panics (a nil dereference) or exits
      the process (a record at fatal level).
    - A Go result pair of a [*Logger] and an [error] is a pair of a [ptr] and an
      [option error], [nil] being [None].
    - [interface{}] values are the closed variant [any]. *)

From Stdlib Require Import List String Ascii ZArith Bool Lia.
Import ListNotations.
Local Open Scope string_scope.

(** ** Errors and dynamic values *)

(** Go [error] values met by the package: the ones zap returns from level
    parsing and [Config.Build] (among them the error of the constructor of
    an encoder registered by the program), and whatever a wrapped handler
    returns. *)
Inductive error : Type :=
| errUnrecognizedLevel (text : string)
| errNoEncoderNameSpecified
| errNoEncoderRegistered (name : string)
| errEncoderConstructor (msg : string)
| errOpenSinks (failed : list string)
| errMissingLevel
| errApp (msg : string).

(** Values of type [interface{}] (Go's [any]). *)
Inductive any : Type :=
| ANil
| AString (s : string)
| AInt (n : Z)
| ABool (b : bool)
| ADuration (ns : Z)
| AError (e : error)
| AField (key : string) (val : any)
| ANamed (type : string) (val : any).

Definition error_eqb (a b : error) : bool :=
  match a, b with
  | errUnrecognizedLevel x, errUnrecognizedLevel y => String.eqb x y
  | errNoEncoderNameSpecified, errNoEncoderNameSpecified => true
  | errNoEncoderRegistered x, errNoEncoderRegistered y => String.eqb x y
  | errEncoderConstructor x, errEncoderConstructor y => String.eqb x y
  | errOpenSinks x, errOpenSinks y =>
      if list_eq_dec string_dec x y then true else false
  | errMissingLevel, errMissingLevel => true
  | errApp x, errApp y => String.eqb x y
  | _, _ => false
  end.

(** Go's [==] on two interface values: same dynamic type, same value. *)
Fixpoint any_eqb (a b : any) : bool :=
  match a, b with
  | ANil, ANil => true
  | AString x, AString y => String.eqb x y
  | AInt x, AInt y => Z.eqb x y
  | ABool x, ABool y => Bool.eqb x y
  | ADuration x, ADuration y => Z.eqb x y
  | AError x, AError y => error_eqb x y
  | AField k v, AField k' v' => String.eqb k k' && any_eqb v v'
  | ANamed t v, ANamed t' v' => String.eqb t t' && any_eqb v v'
  | _, _ => false
  end.

(** ** zapcore: levels, encoder configuration, fields, entries *)

Module zapcore.

(** [zapcore.Level], an [int8] from [DebugLevel = -1] to [FatalLevel = 5]. *)
Inductive Level : Type :=
| DebugLevel | InfoLevel | WarnLevel | ErrorLevel
| DPanicLevel | PanicLevel | FatalLevel.

Definition Level_toZ (l : Level) : Z :=
  match l with
  | DebugLevel => -1
  | InfoLevel => 0
  | WarnLevel => 1
  | ErrorLevel => 2
  | DPanicLevel => 3
  | PanicLevel => 4
  | FatalLevel => 5
  end.

Definition Level_eqb (a b : Level) : bool := Z.eqb (Level_toZ a) (Level_toZ b).

(** [LevelEnabler.Enabled]: [lvl >= l]. *)
Definition Enabled (l lvl : Level) : bool := Z.leb (Level_toZ l) (Level_toZ lvl).

(** The ASCII case of [bytes.ToLower]: the letters A to Z are mapped. *)
Definition lower (c : ascii) : ascii :=
  let n := nat_of_ascii c in
  if Nat.leb 65 n && Nat.leb n 90 then ascii_of_nat (n + 32) else c.

Definition byte_is (c : ascii) (n : nat) : bool := Nat.eqb (nat_of_ascii c) n.

(** [bytes.ToLower] on UTF-8 text, rune by rune.  An ASCII byte is mapped
    by [lower].  Two letters outside ASCII have an ASCII lower case: U+0130
    (bytes C4 B0), whose lower case is i, and U+212A (bytes E2 84 AA), whose
    lower case is k; a lead byte is never the continuation of another rune,
    so these byte sequences are those runes wherever they occur.  Every
    other byte from 80 on is kept: Go maps the rune it belongs to (an
    invalid byte to U+FFFD), and the result is again outside ASCII.  So
    this function yields an ASCII text exactly when Go's does, and then the
    same one; the level names it is compared with are ASCII. *)
Fixpoint ToLower (s : string) : string :=
  match s with
  | EmptyString => EmptyString
  | String c r =>
    match r with
    | String c1 r1 =>
      if byte_is c 196 && byte_is c1 176 then String "i" (ToLower r1)
      else
        match r1 with
        | String c2 r2 =>
          if byte_is c 226 && byte_is c1 132 && byte_is c2 170
          then String "k" (ToLower r2)
          else String (lower c) (ToLower r)
        | EmptyString => String (lower c) (ToLower r)
        end
    | EmptyString => String (lower c) (ToLower r)
    end
  end.

(** [Level.unmarshalText]: the switch over the level names, as of zap
    v1.28.0, which knows "warning" besides "warn" (earlier releases know
    "warn" only; the package pins no release).  The empty text is the info
    level ("make the zero value useful"). *)
Definition unmarshalText (l : Level) (text : string) : Level * bool :=
  if (text =? "debug") || (text =? "DEBUG") then (DebugLevel, true)
  else if (text =? "info") || (text =? "INFO") || (text =? "") then (InfoLevel, true)
  else if (text =? "warn") || (text =? "warning")
          || (text =? "WARN") || (text =? "WARNING") then (WarnLevel, true)
  else if (text =? "error") || (text =? "ERROR") then (ErrorLevel, true)
  else if (text =? "dpanic") || (text =? "DPANIC") then (DPanicLevel, true)
  else if (text =? "panic") || (text =? "PANIC") then (PanicLevel, true)
  else if (text =? "fatal") || (text =? "FATAL") then (FatalLevel, true)
  else (l, false).

(** [Level.UnmarshalText]: the text as it is, then lower-cased; the
    receiver is left as it was when both fail. *)
Definition UnmarshalText (l : Level) (text : string) : Level * option error :=
  let (l1, ok) := unmarshalText l text in
  if ok then (l1, None)
  else
    let (l2, ok2) := unmarshalText l1 (ToLower text) in
    if ok2 then (l2, None) else (l2, Some (errUnrecognizedLevel text)).

Inductive LevelEncoder : Type :=
| LowercaseLevelEncoder | CapitalLevelEncoder | CapitalColorLevelEncoder.

Inductive TimeEncoder : Type :=
| EpochTimeEncoder | ISO8601TimeEncoder.

Inductive DurationEncoder : Type :=
| SecondsDurationEncoder | StringDurationEncoder.

Inductive CallerEncoder : Type :=
| ShortCallerEncoder.

Definition OmitKey : string := "".
Definition DefaultLineEnding : string := String (ascii_of_nat 10) EmptyString.

Record EncoderConfig : Type := {
  MessageKey : string;
  LevelKey : string;
  TimeKey : string;
  NameKey : string;
  CallerKey : string;
  FunctionKey : string;
  StacktraceKey : string;
  LineEnding : string;
  EncodeLevel : LevelEncoder;
  EncodeTime : TimeEncoder;
  EncodeDuration : DurationEncoder;
  EncodeCaller : CallerEncoder
}.

Definition set_EncodeTime (e : EncoderConfig) (t : TimeEncoder) : EncoderConfig :=
  {| MessageKey := MessageKey e; LevelKey := LevelKey e; TimeKey := TimeKey e;
     NameKey := NameKey e; CallerKey := CallerKey e; FunctionKey := FunctionKey e;
     StacktraceKey := StacktraceKey e; LineEnding := LineEnding e;
     EncodeLevel := EncodeLevel e; EncodeTime := t;
     EncodeDuration := EncodeDuration e; EncodeCaller := EncodeCaller e |}.

Definition set_EncodeLevel (e : EncoderConfig) (l : LevelEncoder) : EncoderConfig :=
  {| MessageKey := MessageKey e; LevelKey := LevelKey e; TimeKey := TimeKey e;
     NameKey := NameKey e; CallerKey := CallerKey e; FunctionKey := FunctionKey e;
     StacktraceKey := StacktraceKey e; LineEnding := LineEnding e;
     EncodeLevel := l; EncodeTime := EncodeTime e;
     EncodeDuration := EncodeDuration e; EncodeCaller := EncodeCaller e |}.

(** The value of a [zapcore.Field]: what [zap.Any] stores, or the array of
    rejected pairs that the sugared logger reports. *)
Inductive FieldValue : Type :=
| FAny (a : any)
| FInvalidPairs (ps : list (nat * any * any)).

Record Field : Type := { Key : string; Val : FieldValue }.

(** [zapcore.Entry]: what a log call is about, before its fields. *)
Record Entry : Type := {
  ELevel : Level;
  ETime : Z;
  ELoggerName : string;
  EMessage : string
}.

(** What [ioCore.Write] hands to the sinks: the entry, the fields (the
    standing ones of the core, then the ones of the call) and the sinks
    written to. *)
Record LogRecord : Type := {
  Ent : Entry;
  Fields : list Field;
  Sinks : list string
}.

(** [CheckWriteAction]: what happens after the write. *)
Inductive CheckWriteAction : Type :=
| WriteThenNoop | WriteThenPanic | WriteThenFatal.

(** [zapcore.CheckedEntry]: the entry, whether a core took it, and the
    terminal action. *)
Record CheckedEntry : Type := {
  ceEnt : Entry;
  ceCores : bool;
  ceShould : CheckWriteAction
}.

End zapcore.

(** ** zap: configuration, presets and the logger object *)

Module zap.
Import zapcore.

Record SamplingConfig : Type := { Initial : Z; Thereafter : Z }.

(** [zap.AtomicLevel]; the zero value (no level set) is [None]. *)
Definition AtomicLevel : Type := option Level.
Definition NewAtomicLevelAt (l : Level) : AtomicLevel := Some l.

(** [zap.Config] ([InitialFields] is never set by the package). *)
Record Config : Type := {
  Level : AtomicLevel;
  Development : bool;
  DisableCaller : bool;
  DisableStacktrace : bool;
  Sampling : option SamplingConfig;
  Encoding : string;
  EncoderConfig : zapcore.EncoderConfig;
  OutputPaths : list string;
  ErrorOutputPaths : list string
}.

Definition NewProductionEncoderConfig : zapcore.EncoderConfig :=
  {| TimeKey := "ts";
     LevelKey := "level";
     NameKey := "logger";
     CallerKey := "caller";
     FunctionKey := OmitKey;
     MessageKey := "msg";
     StacktraceKey := "stacktrace";
     LineEnding := DefaultLineEnding;
     EncodeLevel := LowercaseLevelEncoder;
     EncodeTime := EpochTimeEncoder;
     EncodeDuration := SecondsDurationEncoder;
     EncodeCaller := ShortCallerEncoder |}.

Definition NewDevelopmentEncoderConfig : zapcore.EncoderConfig :=
  {| TimeKey := "T";
     LevelKey := "L";
     NameKey := "N";
     CallerKey := "C";
     FunctionKey := OmitKey;
     MessageKey := "M";
     StacktraceKey := "S";
     LineEnding := DefaultLineEnding;
     EncodeLevel := CapitalLevelEncoder;
     EncodeTime := ISO8601TimeEncoder;
     EncodeDuration := StringDurationEncoder;
     EncodeCaller := ShortCallerEncoder |}.

Definition NewProductionConfig : Config :=
  {| Level := NewAtomicLevelAt InfoLevel;
     Development := false;
     DisableCaller := false;
     DisableStacktrace := false;
     Sampling := Some {| Initial := 100; Thereafter := 100 |};
     Encoding := "json";
     EncoderConfig := NewProductionEncoderConfig;
     OutputPaths := ["stderr"];
     ErrorOutputPaths := ["stderr"] |}.

(** The state of a [*zap.Logger] (and of the [*zap.SugaredLogger] around
    it): the core built by [Config.Build], the options, the name and the
    standing fields.  [core] tells apart the cores of different [Build]
    calls: loggers derived from one another share the sampler's counters. *)
Record Logger : Type := {
  core : nat;
  level : zapcore.Level;
  encoding : string;
  encoderConfig : zapcore.EncoderConfig;
  outputPaths : list string;
  errorOutput : list string;
  development : bool;
  addCaller : bool;
  addStack : option zapcore.Level;
  sampling : option SamplingConfig;
  name : string;
  context : list Field
}.

(** [zap.Any(key, value)], [zap.Error(err)] and [zap.Array(key, pairs)]. *)
Definition Any (key : string) (value : any) : Field := {| Key := key; Val := FAny value |}.
Definition Error (err : error) : Field := Any "error" (AError err).
Definition Array (key : string) (ps : list (nat * any * any)) : Field :=
  {| Key := key; Val := FInvalidPairs ps |}.

(** [Logger.With]: a clone whose core carries the fields as well; the
    receiver itself when there is no field. *)
Definition With (log : Logger) (fields : list Field) : Logger :=
  match fields with
  | [] => log
  | _ =>
    {| core := core log; level := level log; encoding := encoding log;
       encoderConfig := encoderConfig log; outputPaths := outputPaths log;
       errorOutput := errorOutput log; development := development log;
       addCaller := addCaller log; addStack := addStack log;
       sampling := sampling log; name := name log;
       context := context log ++ fields |}
  end.

(** [Logger.Named]: a clone with the segment appended after a dot; the
    receiver itself for the empty segment. *)
Definition Named (log : Logger) (s : string) : Logger :=
  if s =? "" then log
  else
    {| core := core log; level := level log; encoding := encoding log;
       encoderConfig := encoderConfig log; outputPaths := outputPaths log;
       errorOutput := errorOutput log; development := development log;
       addCaller := addCaller log; addStack := addStack log;
       sampling := sampling log;
       name := if name log =? "" then s else name log ++ "." ++ s;
       context := context log |}.

End zap.

(** ** Program state and outcomes *)

(** The sampler's counters: per core, level and message, the instant the
    window ends and the count in the window.  (zap hashes the message into
    4096 buckets; here the message itself is the key.) *)
Definition Counters : Type := list (nat * zapcore.Level * string * (Z * Z)).

(** What [RegisterEncoder] has done for a name: nothing, or registered a
    constructor, which builds the encoder or fails with its own error. *)
Inductive Registration : Type :=
| Unregistered
| Builds
| FailsWith (msg : string).

(** What the package reads and changes: the heap of logger objects (a
    [*Logger] is an index into it), the clock in nanoseconds, the records
    written to the sinks so far, the sampler's counters, the number of
    cores built, and the environment of [Config.Build]: the encoders
    registered besides the built-in ones and the sinks that can be opened.
    The files zap creates when it opens a sink, and the memory of the
    caller, are not part of it. *)
Record State : Type := {
  heap : list zap.Logger;
  clock : Z;
  written : list zapcore.LogRecord;
  counters : Counters;
  nextCore : nat;
  encoders : string -> Registration;
  sinkOpens : string -> bool
}.

Definition set_heap (s : State) (h : list zap.Logger) : State :=
  {| heap := h; clock := clock s; written := written s; counters := counters s;
     nextCore := nextCore s; encoders := encoders s; sinkOpens := sinkOpens s |}.

Definition set_written (s : State) (w : list zapcore.LogRecord) : State :=
  {| heap := heap s; clock := clock s; written := w; counters := counters s;
     nextCore := nextCore s; encoders := encoders s; sinkOpens := sinkOpens s |}.

Definition set_counters (s : State) (c : Counters) : State :=
  {| heap := heap s; clock := clock s; written := written s; counters := c;
     nextCore := nextCore s; encoders := encoders s; sinkOpens := sinkOpens s |}.

Definition set_nextCore (s : State) (n : nat) : State :=
  {| heap := heap s; clock := clock s; written := written s; counters := counters s;
     nextCore := n; encoders := encoders s; sinkOpens := sinkOpens s |}.

(** How a call ends: it returns, it panics, or the process exits. *)
Inductive Outcome (A : Type) : Type :=
| Ret (a : A) (s : State)
| Panic (s : State)
| Exit (s : State).
Arguments Ret {A} a s.
Arguments Panic {A} s.
Arguments Exit {A} s.

Definition M (A : Type) : Type := State -> Outcome A.

Definition ret {A : Type} (a : A) : M A := fun s => Ret a s.

Definition bind {A B : Type} (m : M A) (k : A -> M B) : M B :=
  fun s =>
    match m s with
    | Ret a s' => k a s'
    | Panic s' => Panic s'
    | Exit s' => Exit s'
    end.

Definition panic {A : Type} : M A := fun s => Panic s.
Definition exit {A : Type} : M A := fun s => Exit s.

Declare Scope go_scope.
Delimit Scope go_scope with go.
Notation "x <- m ;; k" := (bind m (fun x => k))
  (at level 100, m at next level, right associativity) : go_scope.
Notation "m ;; k" := (bind m (fun _ => k))
  (at level 100, right associativity) : go_scope.
Local Open Scope go_scope.

(** A [*Logger]: [nil] or the address of a cell. *)
Definition ptr : Type := option nat.
Definition nil : ptr := None.

(** [&Logger{z}]: a fresh cell, after all the others. *)
Definition alloc (z : zap.Logger) : M ptr :=
  fun s => Ret (Some (List.length (heap s))) (set_heap s (heap s ++ [z])).

(** [l.SugaredLogger]: reading through the pointer; [nil] panics. *)
Definition deref (l : ptr) : M zap.Logger :=
  fun s =>
    match l with
    | None => Panic s
    | Some a =>
      match nth_error (heap s) a with
      | Some z => Ret z s
      | None => Panic s
      end
    end.

(** [time.Now()], in nanoseconds. *)
Definition time_Now : M Z := fun s => Ret (clock s) s.

(** [time.Since(t)] *)
Definition time_Since (t : Z) : M Z := fun s => Ret (clock s - t)%Z s.

(** ** zap: the operations that read or change the program state *)

Module zapfx.
Import zapcore.

(** *** The sampler *)

Definition tick : Z := 1000000000.

Definition key_eqb (c : nat) (lvl : Level) (msg : string)
           (k : nat * Level * string) : bool :=
  let '(c', lvl', msg') := k in
  Nat.eqb c c' && Level_eqb lvl lvl' && String.eqb msg msg'.

Fixpoint counter_get (cs : Counters) (c : nat) (lvl : Level) (msg : string) : Z * Z :=
  match cs with
  | [] => (0, 0)%Z
  | (k, v) :: r => if key_eqb c lvl msg k then v else counter_get r c lvl msg
  end.

Fixpoint counter_set (cs : Counters) (c : nat) (lvl : Level) (msg : string)
         (v : Z * Z) : Counters :=
  match cs with
  | [] => [((c, lvl, msg), v)]
  | (k, v') :: r =>
    if key_eqb c lvl msg k then (k, v) :: r
    else (k, v') :: counter_set r c lvl msg v
  end.

(** [counter.IncCheckReset]: count within the window, or open a window. *)
Definition IncCheckReset (t : Z) (ctr : Z * Z) : Z * (Z * Z) :=
  let (resetAt, count) := ctr in
  if (t <? resetAt)%Z then ((count + 1)%Z, (resetAt, (count + 1)%Z))
  else (1%Z, ((t + tick)%Z, 1%Z)).

(** [sampler.Check] for an enabled level: the first [Initial] records of
    a window pass, then one in [Thereafter]. *)
Definition sample (sc : zap.SamplingConfig) (c : nat) (lvl : Level)
           (msg : string) (t : Z) (cs : Counters) : bool * Counters :=
  let (n, ctr) := IncCheckReset t (counter_get cs c lvl msg) in
  let first := zap.Initial sc in
  let thereafter := zap.Thereafter sc in
  let dropped :=
    (first <? n)%Z &&
    ((thereafter =? 0)%Z || negb ((n - first) mod thereafter =? 0)%Z) in
  (negb dropped, counter_set cs c lvl msg ctr).

(** *** Building a logger from a configuration *)

(** [newEncoder]: the name must not be empty and must be registered;
    the registered constructor is then run, and its error is the result.
    "console" and "json" are registered by zap itself (a program cannot
    register them again) and their constructors do not fail. *)
Definition newEncoder (name : string) (s : State) : option error :=
  if name =? "" then Some errNoEncoderNameSpecified
  else if (name =? "console") || (name =? "json") then None
  else
    match encoders s name with
    | Unregistered => Some (errNoEncoderRegistered name)
    | Builds => None
    | FailsWith msg => Some (errEncoderConstructor msg)
    end.

(** [newSink]: "stdout" and "stderr" are the process's own streams. *)
Definition newSink (s : State) (path : string) : bool :=
  (path =? "stdout") || (path =? "stderr") || sinkOpens s path.

(** [zap.Open]: every path is tried; the error lists the ones that fail.
    (zap has then created the file sinks that did open; files are not
    part of the state.) *)
Definition Open (paths : list string) (s : State) : option error :=
  match filter (fun p => negb (newSink s p)) paths with
  | [] => None
  | failed => Some (errOpenSinks failed)
  end.

Definition openSinks (cfg : zap.Config) (s : State) : option error :=
  match Open (zap.OutputPaths cfg) s with
  | Some e => Some e
  | None => Open (zap.ErrorOutputPaths cfg) s
  end.

(** [Config.Build]: encoder, sinks, level, then the core and the options
    ([buildOptions]: development, caller, stack traces from error level,
    or from warn level in development, sampler). *)
Definition Build (cfg : zap.Config) : M (option zap.Logger * option error) :=
  fun s =>
    match newEncoder (zap.Encoding cfg) s with
    | Some err => Ret (None, Some err) s
    | None =>
      match openSinks cfg s with
      | Some err => Ret (None, Some err) s
      | None =>
        match zap.Level cfg with
        | None => Ret (None, Some errMissingLevel) s
        | Some lvl =>
          let stackLevel := if zap.Development cfg then WarnLevel else ErrorLevel in
          Ret (Some {| zap.core := nextCore s;
                       zap.level := lvl;
                       zap.encoding := zap.Encoding cfg;
                       zap.encoderConfig := zap.EncoderConfig cfg;
                       zap.outputPaths := zap.OutputPaths cfg;
                       zap.errorOutput := zap.ErrorOutputPaths cfg;
                       zap.development := zap.Development cfg;
                       zap.addCaller := negb (zap.DisableCaller cfg);
                       zap.addStack :=
                         if zap.DisableStacktrace cfg then None else Some stackLevel;
                       zap.sampling := zap.Sampling cfg;
                       zap.name := "";
                       zap.context := [] |}, None)
              (set_nextCore s (S (nextCore s)))
        end
      end
    end.

(** [zap.NewProduction()] *)
Definition NewProduction : M (option zap.Logger * option error) :=
  Build zap.NewProductionConfig.

(** [Logger.Sugar]: it clones the receiver, so a nil receiver panics. *)
Definition Sugar (log : option zap.Logger) : M zap.Logger :=
  match log with
  | None => panic
  | Some z => ret z
  end.

(** *** Writing a record *)

(** [Logger.check]: below [DPanicLevel] a disabled level ends the call;
    the core takes the entry when the level is enabled and the sampler,
    if any, lets it pass; panic and fatal levels (and dpanic in
    development) set the terminal action.  The result is [None] (Go's
    nil) when no core took the entry and there is no terminal action. *)
Definition check (log : zap.Logger) (lvl : Level) (msg : string)
  : M (option CheckedEntry) :=
  fun s =>
    if (Level_toZ lvl <? Level_toZ DPanicLevel)%Z && negb (Enabled (zap.level log) lvl)
    then Ret None s
    else
      let ent := {| ELevel := lvl; ETime := clock s;
                    ELoggerName := zap.name log; EMessage := msg |} in
      let (willWrite, s1) :=
        if Enabled (zap.level log) lvl then
          match zap.sampling log with
          | None => (true, s)
          | Some sc =>
            let (keep, cs) := sample sc (zap.core log) lvl msg (clock s) (counters s) in
            (keep, set_counters s cs)
          end
        else (false, s) in
      let should :=
        match lvl with
        | PanicLevel => WriteThenPanic
        | FatalLevel => WriteThenFatal
        | DPanicLevel => if zap.development log then WriteThenPanic else WriteThenNoop
        | _ => WriteThenNoop
        end in
      match willWrite, should with
      | false, WriteThenNoop => Ret None s1
      | _, _ => Ret (Some {| ceEnt := ent; ceCores := willWrite; ceShould := should |}) s1
      end.

(** [CheckedEntry.Write]: the core that took the entry writes it with its
    standing fields first, then the terminal action runs. *)
Definition Write (log : zap.Logger) (ce : CheckedEntry) (fields : list Field) : M unit :=
  fun s =>
    let s1 :=
      if ceCores ce then
        set_written s (written s ++
          [{| Ent := ceEnt ce;
              Fields := zap.context log ++ fields;
              Sinks := zap.outputPaths log |}])
      else s in
    match ceShould ce with
    | WriteThenNoop => Ret tt s1
    | WriteThenPanic => Panic s1
    | WriteThenFatal => Exit s1
    end.

(** [Logger.Error(msg, fields...)] *)
Definition Error (log : zap.Logger) (msg : string) (fields : list Field) : M unit :=
  ce <- check log ErrorLevel msg ;;
  match ce with
  | Some ce => Write log ce fields
  | None => ret tt
  end.

End zapfx.

(** ** zap.SugaredLogger: loosely typed key/value logging *)

Module SugaredLogger.
Import zapcore.

Definition _oddNumberErrMsg : string := "Ignored key without a value.".
Definition _nonStringKeyErrMsg : string :=
  "Ignored key-value pairs with non-string keys.".
Definition _multipleErrMsg : string := "Multiple errors without a key.".

(** The loop of [sweetenFields] from position [i] on: a [zap.Field] and an
    [error] stand alone, a last element without a value is reported and
    dropped, any other element is a key followed by its value, and a pair
    whose key is not a string is set aside. *)
Fixpoint sweetenLoop (s : zap.Logger) (i : nat) (args : list any)
         (seenError : bool) (fields : list Field) (invalid : list (nat * any * any))
  : M (list Field * list (nat * any * any)) :=
  match args with
  | [] => ret (fields, invalid)
  | AField k v :: rest =>
      sweetenLoop s (i + 1) rest seenError (fields ++ [zap.Any k v]) invalid
  | AError err :: rest =>
      if seenError then
        zapfx.Error s _multipleErrMsg [zap.Error err] ;;
        sweetenLoop s (i + 1) rest seenError fields invalid
      else
        sweetenLoop s (i + 1) rest true (fields ++ [zap.Error err]) invalid
  | [x] =>
      zapfx.Error s _oddNumberErrMsg [zap.Any "ignored" x] ;;
      ret (fields, invalid)
  | key :: val :: rest =>
      match key with
      | AString keyStr =>
          sweetenLoop s (i + 2) rest seenError (fields ++ [zap.Any keyStr val]) invalid
      | _ =>
          sweetenLoop s (i + 2) rest seenError fields (invalid ++ [(i, key, val)])
      end
  end.

(** [sweetenFields]: the fields of the well-formed pairs; the rejected
    pairs are reported in one record at error level. *)
Definition sweetenFields (s : zap.Logger) (args : list any) : M (list Field) :=
  match args with
  | [] => ret []
  | _ =>
    r <- sweetenLoop s 0 args false [] [] ;;
    match snd r with
    | [] => ret (fst r)
    | invalid =>
        zapfx.Error s _nonStringKeyErrMsg [zap.Array "invalid" invalid] ;;
        ret (fst r)
    end
  end.

(** [SugaredLogger.With(args...)] *)
Definition With (s : zap.Logger) (args : list any) : M zap.Logger :=
  fields <- sweetenFields s args ;;
  ret (zap.With s fields).

(** [SugaredLogger.Named(name)] *)
Definition Named (s : zap.Logger) (name : string) : M zap.Logger :=
  ret (zap.Named s name).

(** [SugaredLogger.log], with the message already formatted: the level
    gate, the check, and the fields sweetened only when there is
    something to write. *)
Definition log (s : zap.Logger) (lvl : Level) (msg : string) (context : list any)
  : M unit :=
  if (Level_toZ lvl <? Level_toZ DPanicLevel)%Z && negb (Enabled (zap.level s) lvl)
  then ret tt
  else
    ce <- zapfx.check s lvl msg ;;
    match ce with
    | Some ce =>
        fields <- sweetenFields s context ;;
        zapfx.Write s ce fields
    | None => ret tt
    end.

Definition Debugw (s : zap.Logger) (msg : string) (kv : list any) : M unit :=
  log s DebugLevel msg kv.
Definition Infow (s : zap.Logger) (msg : string) (kv : list any) : M unit :=
  log s InfoLevel msg kv.
Definition Warnw (s : zap.Logger) (msg : string) (kv : list any) : M unit :=
  log s WarnLevel msg kv.
Definition Errorw (s : zap.Logger) (msg : string) (kv : list any) : M unit :=
  log s ErrorLevel msg kv.

End SugaredLogger.

(** ** context, gin and grpc: what the package reads from them *)

Module context.

(** A non-nil [context.Context] built by [context.WithValue]: the pairs
    from the innermost to the outermost.  A nil context is [None]. *)
Definition Context : Type := option (list (any * any)).

(** [ctx.Value(key)]: the value of the innermost pair whose key equals
    [key], Go's nil when there is none. *)
Fixpoint Value (ctx : list (any * any)) (key : any) : any :=
  match ctx with
  | [] => ANil
  | (k, v) :: parent => if any_eqb k key then v else Value parent key
  end.

End context.

Module gin.

Record URL : Type := { Path : string; RawQuery : string }.

(** [http.Request], with [UserAgent] for the method [UserAgent()]. *)
Record Request : Type := { Method : string; URL_ : URL; UserAgent : string }.

(** [gin.Error], reduced to the message of the error it wraps. *)
Record Error : Type := { Err : string }.

(** [gin.Context]: the request, the status of the response writer, the
    errors attached by the handlers, and the result of [ClientIP()]. *)
Record Context : Type := {
  Request_ : Request;
  Status : Z;
  Errors : list Error;
  ClientIP : string
}.

(** [errorMsgs.Errors()]: one message per error. *)
Definition Errors_Errors (a : list Error) : list string := map Err a.

End gin.

Module grpc.

Record UnaryServerInfo : Type := { FullMethod : string }.

Definition UnaryHandler : Type :=
  context.Context -> any -> M (any * option error).

End grpc.

(** ** Package logger *)

(** [type Config struct] *)
Record Config : Type := {
  LogLevel : string;
  Development : bool;
  Encoding : string;
  OutputPaths : list string
}.

Definition set_Encoding (cfg : Config) (e : string) : Config :=
  {| LogLevel := LogLevel cfg; Development := Development cfg;
     Encoding := e; OutputPaths := OutputPaths cfg |}.

(** [func New(cfg Config)], returning a [*Logger] and an [error] *)
Definition New (cfg : Config) : M (ptr * option error) :=
  let cfg := if Encoding cfg =? "" then set_Encoding cfg "json" else cfg in
  let logLevel := zapcore.InfoLevel in
  let (logLevel, err) := zapcore.UnmarshalText logLevel (LogLevel cfg) in
  match err with
  | Some err => ret (nil, Some err)
  | None =>
    let encoderConfig := zap.NewProductionEncoderConfig in
    let encoderConfig :=
      if Development cfg then zap.NewDevelopmentEncoderConfig else encoderConfig in
    let encoderConfig :=
      zapcore.set_EncodeTime encoderConfig zapcore.ISO8601TimeEncoder in
    let encoderConfig :=
      zapcore.set_EncodeLevel encoderConfig zapcore.CapitalColorLevelEncoder in
    let zapConfig :=
      {| zap.Level := zap.NewAtomicLevelAt logLevel;
         zap.Development := Development cfg;
         zap.DisableCaller := false;
         zap.DisableStacktrace := false;
         zap.Sampling := None;
         zap.Encoding := Encoding cfg;
         zap.EncoderConfig := encoderConfig;
         zap.OutputPaths := OutputPaths cfg ++ ["stderr"];
         zap.ErrorOutputPaths := ["stderr"] |} in
    r <- zapfx.Build zapConfig ;;
    let (zapLogger, err) := r in
    match err with
    | Some err => ret (nil, Some err)
    | None =>
      sugared <- zapfx.Sugar zapLogger ;;
      l <- alloc sugared ;;
      ret (l, None)
    end
  end.

(** [func NewDefault() *Logger]: the error of [zap.NewProduction] is
    dropped and the logger is used as it is. *)
Definition NewDefault : M ptr :=
  r <- zapfx.NewProduction ;;
  let (zapLogger, _) := r in
  sugared <- zapfx.Sugar zapLogger ;;
  alloc sugared.

(** [func (l *Logger) With(fields ...interface{}) *Logger] *)
Definition With (l : ptr) (fields : list any) : M ptr :=
  s <- deref l ;;
  s' <- SugaredLogger.With s fields ;;
  alloc s'.

(** [func (l *Logger) Named(name string) *Logger] *)
Definition Named (l : ptr) (name : string) : M ptr :=
  s <- deref l ;;
  s' <- SugaredLogger.Named s name ;;
  alloc s'.

(** The methods [*Logger] has from the embedded [*zap.SugaredLogger]. *)
Definition log (l : ptr) (lvl : zapcore.Level) (msg : string) (kv : list any) : M unit :=
  s <- deref l ;;
  SugaredLogger.log s lvl msg kv.

Definition Infow (l : ptr) (msg : string) (kv : list any) : M unit :=
  s <- deref l ;;
  SugaredLogger.Infow s msg kv.

Definition Errorw (l : ptr) (msg : string) (kv : list any) : M unit :=
  s <- deref l ;;
  SugaredLogger.Errorw s msg kv.

(** [for _, e := range es { body }] *)
Fixpoint forEach {A : Type} (es : list A) (body : A -> M unit) : M unit :=
  match es with
  | [] => ret tt
  | e :: rest => body e ;; forEach rest body
  end.

(** [func GinLogger(log *Logger) gin.HandlerFunc].  [c.Next()] runs the rest
    of the handler chain on the context; the chain is the parameter [Next],
    and the context as the chain leaves it is bound to [c] again. *)
Definition GinLogger (log : ptr) (Next : gin.Context -> M gin.Context)
  : gin.Context -> M gin.Context :=
  fun c =>
    start <- time_Now ;;
    let path := gin.Path (gin.URL_ (gin.Request_ c)) in
    let query := gin.RawQuery (gin.URL_ (gin.Request_ c)) in

    c <- Next c ;;

    end_ <- time_Now ;;
    let latency := (end_ - start)%Z in

    if Nat.ltb 0 (List.length (gin.Errors c)) then
      forEach (gin.Errors_Errors (gin.Errors c)) (fun e =>
        Errorw log e
          [AString "status"; AInt (gin.Status c);
           AString "method"; AString (gin.Method (gin.Request_ c));
           AString "path"; AString path;
           AString "query"; AString query;
           AString "ip"; AString (gin.ClientIP c);
           AString "user-agent"; AString (gin.UserAgent (gin.Request_ c));
           AString "latency"; ADuration latency]) ;;
      ret c
    else
      Infow log "HTTP request"
        [AString "status"; AInt (gin.Status c);
         AString "method"; AString (gin.Method (gin.Request_ c));
         AString "path"; AString path;
         AString "query"; AString query;
         AString "ip"; AString (gin.ClientIP c);
         AString "user-agent"; AString (gin.UserAgent (gin.Request_ c));
         AString "latency"; ADuration latency] ;;
      ret c.

(** [func GRPCLoggingInterceptor(log *Logger) grpc.UnaryServerInterceptor] *)
Definition GRPCLoggingInterceptor (log : ptr)
  : context.Context -> any -> grpc.UnaryServerInfo -> grpc.UnaryHandler ->
    M (any * option error) :=
  fun ctx req info handler =>
    start <- time_Now ;;
    r <- handler ctx req ;;
    let (resp, err) := r in

    match err with
    | Some e =>
        d <- time_Since start ;;
        Errorw log "gRPC request failed"
          [AString "method"; AString (grpc.FullMethod info);
           AString "duration"; ADuration d;
           AString "error"; AError e]
    | None =>
        d <- time_Since start ;;
        Infow log "gRPC request"
          [AString "method"; AString (grpc.FullMethod info);
           AString "duration"; ADuration d]
    end ;;

    ret (resp, err).

(** [v.(string)] with the comma-ok form: the string and [true] when the
    dynamic type is [string], the zero value and [false] otherwise. *)
Definition assertString (v : any) : string * bool :=
  match v with
  | AString s => (s, true)
  | _ => ("", false)
  end.

(** [func (l *Logger) WithContext(ctx context.Context) *Logger] *)
Definition WithContext (l : ptr) (ctx : context.Context) : M ptr :=
  match ctx with
  | None => ret l
  | Some ctx =>
    let (reqID, ok) := assertString (context.Value ctx (AString "request_id")) in
    if ok then With l [AString "request_id"; AString reqID]
    else ret l
  end.

(** [multiWriteSyncer.Sync]: every sink of the core is synced and the
    errors are collected (zap's multierr: the list of the sinks' errors,
    Go's nil when there is none).  What syncing a sink gives depends on
    the file system; it is the parameter [sync]. *)
Definition syncAll (sync : string -> option error) (paths : list string) : list error :=
  flat_map (fun p => match sync p with Some e => [e] | None => [] end) paths.

(** [func (l *Logger) Sync() error] *)
Definition Sync (sync : string -> option error) (l : ptr) : M (list error) :=
  s <- deref l ;;
  ret (syncAll sync (zap.outputPaths s)).

(** * Definitions used in the statements *)

Local Open Scope list_scope.

(** A fresh process: nothing allocated, nothing written, no encoder
    registered besides the built-in ones, every file sink can be opened. *)
Definition st0 : State :=
  {| heap := []; clock := 0%Z; written := []; counters := []; nextCore := 0;
     encoders := fun _ => Unregistered; sinkOpens := fun _ => true |}.

Definition cfg_info : Config :=
  {| LogLevel := "info"; Development := false; Encoding := "json";
     OutputPaths := ["stdout"] |}.

Definition cfg_error : Config :=
  {| LogLevel := "error"; Development := false; Encoding := "json";
     OutputPaths := ["stdout"] |}.

Definition cfg_xml : Config :=
  {| LogLevel := "info"; Development := false; Encoding := "xml";
     OutputPaths := ["stdout"] |}.

Definition cfg_empty : Config :=
  {| LogLevel := ""; Development := true; Encoding := ""; OutputPaths := [] |}.

(** The texts the switch of [unmarshalText] knows, with their levels. *)
Definition levelNames : list (string * zapcore.Level) :=
  [("debug", zapcore.DebugLevel); ("DEBUG", zapcore.DebugLevel);
   ("info", zapcore.InfoLevel); ("INFO", zapcore.InfoLevel); ("", zapcore.InfoLevel);
   ("warn", zapcore.WarnLevel); ("warning", zapcore.WarnLevel);
   ("WARN", zapcore.WarnLevel); ("WARNING", zapcore.WarnLevel);
   ("error", zapcore.ErrorLevel); ("ERROR", zapcore.ErrorLevel);
   ("dpanic", zapcore.DPanicLevel); ("DPANIC", zapcore.DPanicLevel);
   ("panic", zapcore.PanicLevel); ("PANIC", zapcore.PanicLevel);
   ("fatal", zapcore.FatalLevel); ("FATAL", zapcore.FatalLevel)].

Fixpoint levelOf (names : list (string * zapcore.Level)) (text : string)
  : option zapcore.Level :=
  match names with
  | [] => None
  | (n, l) :: rest => if text =? n then Some l else levelOf rest text
  end.

(** An upper-case ASCII letter. *)
Definition is_upper (c : ascii) : bool :=
  Nat.leb 65 (nat_of_ascii c) && Nat.leb (nat_of_ascii c) 90.

(** zap's names of the severities. *)
Definition severityNames : list (string * zapcore.Level) :=
  [("debug", zapcore.DebugLevel); ("info", zapcore.InfoLevel);
   ("warn", zapcore.WarnLevel); ("warning", zapcore.WarnLevel);
   ("error", zapcore.ErrorLevel); ("dpanic", zapcore.DPanicLevel);
   ("panic", zapcore.PanicLevel); ("fatal", zapcore.FatalLevel)].

(** The level text names a known severity: in lower case it is one of the
    names.  The empty text names none. *)
Definition knownSeverity (text : string) : option zapcore.Level :=
  levelOf severityNames (zapcore.ToLower text).

(** The encoding after the default of [New]. *)
Definition encodingOf (cfg : Config) : string :=
  if Encoding cfg =? "" then "json" else Encoding cfg.

(** The engine accepts what [New] assembles from [cfg]: the encoding is
    registered and every configured sink can be opened. *)
Definition buildable (cfg : Config) (s : State) : bool :=
  match zapfx.newEncoder (encodingOf cfg) s with
  | None => forallb (zapfx.newSink s) (OutputPaths cfg)
  | Some _ => false
  end.

(** The object [New] allocates for [cfg] at level [lvl], as core [c]. *)
Definition newLogger (cfg : Config) (lvl : zapcore.Level) (c : nat) : zap.Logger :=
  {| zap.core := c;
     zap.level := lvl;
     zap.encoding := encodingOf cfg;
     zap.encoderConfig :=
       zapcore.set_EncodeLevel
         (zapcore.set_EncodeTime
            (if Development cfg then zap.NewDevelopmentEncoderConfig
             else zap.NewProductionEncoderConfig)
            zapcore.ISO8601TimeEncoder)
         zapcore.CapitalColorLevelEncoder;
     zap.outputPaths := OutputPaths cfg ++ ["stderr"];
     zap.errorOutput := ["stderr"];
     zap.development := Development cfg;
     zap.addCaller := true;
     zap.addStack :=
       Some (if Development cfg then zapcore.WarnLevel else zapcore.ErrorLevel);
     zap.sampling := None;
     zap.name := "";
     zap.context := [] |}.

(** The state an outcome leaves, however the call ended. *)
Definition stateOf {A : Type} (o : Outcome A) : State :=
  match o with
  | Ret _ s => s
  | Panic s => s
  | Exit s => s
  end.

(** The records a call adds to the sinks when run from [s]. *)
Definition emitted {A : Type} (m : M A) (s : State) : list zapcore.LogRecord :=
  skipn (List.length (written s)) (written (stateOf (m s))).

(** The record a logger writes for a call: entry, standing fields followed
    by the fields of the call, and the logger's own sinks. *)
Definition recordOf (z : zap.Logger) (lvl : zapcore.Level) (t : Z) (msg : string)
           (fields : list zapcore.Field) : zapcore.LogRecord :=
  {| zapcore.Ent := {| zapcore.ELevel := lvl; zapcore.ETime := t;
                       zapcore.ELoggerName := zap.name z; zapcore.EMessage := msg |};
     zapcore.Fields := zap.context z ++ fields;
     zapcore.Sinks := zap.outputPaths z |}.

(** What [New] does for [cfg] once the level is [lvl].  When the engine
    accepts the assembled configuration: [New] returns a logger and no
    error, and the minimum severity of the logger is [lvl]: a call writes
    its record exactly when its level is at least [lvl].  When the engine
    rejects it: [New] returns an error and no logger. *)
Definition NewAtLevel (cfg : Config) (s : State) (lvl : zapcore.Level) : Prop :=
  if buildable cfg s then
    exists l s' z,
      New cfg s = Ret (Some l, None) s' /\
      nth_error (heap s') l = Some z /\
      zap.level z = lvl /\
      forall lvl' msg st,
        nth_error (heap st) l = Some z ->
        emitted (log (Some l) lvl' msg []) st =
        if (zapcore.Level_toZ lvl <=? zapcore.Level_toZ lvl')%Z
        then [recordOf z lvl' (clock st) msg []] else []
  else
    exists e s', New cfg s = Ret (nil, Some e) s'.

(** The letter I with a dot above, U+0130, followed by NFO. *)
Definition text_dotted_INFO : string :=
  String (ascii_of_nat 196) (String (ascii_of_nat 176) "NFO").

(** The state after [New cfg_info] in a fresh process. *)
Definition st_info : State := stateOf (New cfg_info st0).

(** The record carries the standing fields of [z], before any other. *)
Definition carries (z : zap.Logger) (r : zapcore.LogRecord) : Prop :=
  exists fs, zapcore.Fields r = zap.context z ++ fs.

(** From [s] to [s']: same heap, same clock, and the records added all carry
    the standing fields of [z]. *)
Definition grows (z : zap.Logger) (s s' : State) : Prop :=
  heap s' = heap s /\ clock s' = clock s /\
  exists new, written s' = written s ++ new /\ Forall (carries z) new.

(** A process in which [New cfg_info] has run and the logger at address 0
    was given the standing field k=v, at address 1. *)
Definition st_kv : State :=
  stateOf (With (Some 0) [AString "k"; AString "v"] st_info).

Definition ctx_abc : list (any * any) :=
  [(AString "user", AString "u1"); (AString "request_id", AString "abc")].

(** A state with the records [new] added to the sinks. *)
Definition emit (s : State) (new : list zapcore.LogRecord) : State :=
  set_written s (written s ++ new).

(** The fields of the record of a request, in the order of the source. *)
Definition httpFields (c : gin.Context) (path query : string) (latency : Z)
  : list zapcore.Field :=
  [zap.Any "status" (AInt (gin.Status c));
   zap.Any "method" (AString (gin.Method (gin.Request_ c)));
   zap.Any "path" (AString path);
   zap.Any "query" (AString query);
   zap.Any "ip" (AString (gin.ClientIP c));
   zap.Any "user-agent" (AString (gin.UserAgent (gin.Request_ c)));
   zap.Any "latency" (ADuration latency)].

(** The state after [New cfg_error] in a fresh process: the logger at
    address 0 has minimum severity error. *)
Definition st_error : State := stateOf (New cfg_error st0).

(** A request [GET /foo?x=1] answered with status 200 and no error. *)
Definition req_foo : gin.Context :=
  {| gin.Request_ :=
       {| gin.Method := "GET";
          gin.URL_ := {| gin.Path := "/foo"; gin.RawQuery := "x=1" |};
          gin.UserAgent := "curl/8" |};
     gin.Status := 200;
     gin.Errors := [];
     gin.ClientIP := "10.0.0.1" |}.

(** A handler chain that takes 5 ns, attaches one error and answers 500. *)
Definition chain_fails : gin.Context -> M gin.Context :=
  fun c s =>
    Ret {| gin.Request_ := gin.Request_ c; gin.Status := 500;
           gin.Errors := gin.Errors c ++ [{| gin.Err := "boom" |}];
           gin.ClientIP := gin.ClientIP c |}
        {| heap := heap s; clock := (clock s + 5)%Z; written := written s;
           counters := counters s; nextCore := nextCore s;
           encoders := encoders s; sinkOpens := sinkOpens s |}.

(** A call of [/svc/Method] whose handler takes 7 ns and fails. *)
Definition info_svc : grpc.UnaryServerInfo := {| grpc.FullMethod := "/svc/Method" |}.

Definition handler_fails : grpc.UnaryHandler :=
  fun _ _ s =>
    Ret (ANil, Some (errApp "boom"))
        {| heap := heap s; clock := (clock s + 7)%Z; written := written s;
           counters := counters s; nextCore := nextCore s;
           encoders := encoders s; sinkOpens := sinkOpens s |}.

(** A handler that answers with the request and no error. *)
Definition handler_echo : grpc.UnaryHandler := fun _ req => ret (req, None).

(** ** Definitions for the further properties *)

Definition set_LogLevel (cfg : Config) (text : string) : Config :=
  {| LogLevel := text; Development := Development cfg;
     Encoding := Encoding cfg; OutputPaths := OutputPaths cfg |}.

(** Well-formed key/value arguments: each key a string, followed by its
    value. *)
Definition kvs (ps : list (string * any)) : list any :=
  flat_map (fun p => [AString (fst p); snd p]) ps.

(** The fields of well-formed key/value arguments, in their order. *)
Definition fieldsOf (ps : list (string * any)) : list zapcore.Field :=
  map (fun p => zap.Any (fst p) (snd p)) ps.

(** From [s] to [s']: same heap, same clock, and every record added
    satisfies [P]. *)
Definition adds (P : zapcore.LogRecord -> Prop) (s s' : State) : Prop :=
  heap s' = heap s /\ clock s' = clock s /\
  exists new, written s' = written s ++ new /\ Forall P new.

(** The record was written by the logger [z]: it has the name of [z], went
    to the sinks of [z] and starts with the standing fields of [z]. *)
Definition written_by (z : zap.Logger) (r : zapcore.LogRecord) : Prop :=
  zapcore.ELoggerName (zapcore.Ent r) = zap.name z /\
  zapcore.Sinks r = zap.outputPaths z /\
  exists fs, zapcore.Fields r = zap.context z ++ fs.

(** The record of a request that the interceptor expects to write: an Info
    record when the chain left no error, an Error record with the message
    of one of the errors otherwise. *)
Definition httpRecord (z : zap.Logger) (c c' : gin.Context) (t0 t1 : Z)
           (r : zapcore.LogRecord) : Prop :=
  let fields :=
    httpFields c' (gin.Path (gin.URL_ (gin.Request_ c)))
               (gin.RawQuery (gin.URL_ (gin.Request_ c))) (t1 - t0) in
  match gin.Errors c' with
  | [] => r = recordOf z zapcore.InfoLevel t1 "HTTP request" fields
  | es => exists e, In e es /\
                    r = recordOf z zapcore.ErrorLevel t1 (gin.Err e) fields
  end.

(** A handler chain that rewrites the path and takes 3 ns. *)
Definition chain_rewrites : gin.Context -> M gin.Context :=
  fun c s =>
    Ret {| gin.Request_ :=
             {| gin.Method := gin.Method (gin.Request_ c);
                gin.URL_ := {| gin.Path := "/internal";
                               gin.RawQuery := gin.RawQuery (gin.URL_ (gin.Request_ c)) |};
                gin.UserAgent := gin.UserAgent (gin.Request_ c) |};
           gin.Status := gin.Status c;
           gin.Errors := gin.Errors c;
           gin.ClientIP := gin.ClientIP c |}
        {| heap := heap s; clock := (clock s + 3)%Z; written := written s;
           counters := counters s; nextCore := nextCore s;
           encoders := encoders s; sinkOpens := sinkOpens s |}.

(** A handler chain and a handler that panic. *)
Definition chain_panics : gin.Context -> M gin.Context := fun _ => panic.
Definition handler_panics : grpc.UnaryHandler := fun _ _ => panic.

(** A context whose request id is stored under a key of a defined type. *)
Definition ctx_typed_key : list (any * any) :=
  [(ANamed "ctxKey" (AString "request_id"), AString "abc")].

(** A process in which the program has registered an encoder "xml" whose
    constructor fails. *)
Definition st_xml_fails : State :=
  {| heap := []; clock := 0%Z; written := []; counters := []; nextCore := 0;
     encoders := fun n => if n =? "xml" then FailsWith "xml: bad configuration"
                          else Unregistered;
     sinkOpens := fun _ => true |}.

(** Syncing fails on stderr only. *)
Definition sync_stderr_fails (p : string) : option error :=
  if p =? "stderr" then Some (errApp "sync /dev/stderr: invalid argument") else None.

(** The state after [NewDefault] in a fresh process. *)
Definition st_default : State := stateOf (NewDefault st0).

(** A process in which no file can be opened, and a configuration with a
    file among its sinks. *)
Definition st_readonly : State :=
  {| heap := []; clock := 0%Z; written := []; counters := []; nextCore := 0;
     encoders := fun _ => Unregistered; sinkOpens := fun _ => false |}.

Definition cfg_file : Config :=
  {| LogLevel := "debug"; Development := false; Encoding := "console";
     OutputPaths := ["stdout"; "/var/log/app.log"] |}.

(** * Properties *)

(** ** The logger that New builds *)

Lemma Open_ok (paths : list string) (s : State) :
  zapfx.Open paths s = None <-> forallb (zapfx.newSink s) paths = true.
Proof.
  unfold zapfx.Open.
  induction paths as [|p paths IH]; simpl.
  - split; reflexivity.
  - destruct (zapfx.newSink s p); simpl.
    + exact IH.
    + split; discriminate.
Qed.

Lemma forallb_snoc {A : Type} (f : A -> bool) (l : list A) (a : A) :
  forallb f (l ++ [a]) = forallb f l && f a.
Proof.
  rewrite forallb_app. simpl. now rewrite andb_true_r.
Qed.

(** The level parser against the table of names: a text is accepted when
    it, or its lower-cased form, is in the table; the receiver is kept
    otherwise. *)
Lemma unmarshalText_table (l : zapcore.Level) (text : string) :
  zapcore.unmarshalText l text =
  match levelOf levelNames text with
  | Some lvl => (lvl, true)
  | None => (l, false)
  end.
Proof.
  unfold zapcore.unmarshalText. simpl.
  repeat (destruct (text =? _); simpl; try reflexivity).
Qed.

Lemma UnmarshalText_table (l : zapcore.Level) (text : string) :
  zapcore.UnmarshalText l text =
  match levelOf levelNames text with
  | Some lvl => (lvl, None)
  | None =>
    match levelOf levelNames (zapcore.ToLower text) with
    | Some lvl => (lvl, None)
    | None => (l, Some (errUnrecognizedLevel text))
    end
  end.
Proof.
  unfold zapcore.UnmarshalText. rewrite unmarshalText_table.
  destruct (levelOf levelNames text); [reflexivity|].
  rewrite unmarshalText_table.
  destruct (levelOf levelNames (zapcore.ToLower text)); reflexivity.
Qed.

(** A name of the table is in the table in lower case too, with the same
    level. *)
Lemma levelOf_ToLower (text : string) (lvl : zapcore.Level) :
  levelOf levelNames text = Some lvl ->
  levelOf levelNames (zapcore.ToLower text) = Some lvl.
Proof.
  unfold levelNames, levelOf.
  repeat match goal with
         | |- context [String.eqb text ?n] =>
           destruct (String.eqb_spec text n) as [->|_];
             [intros H; injection H as <-; reflexivity|]
         end.
  discriminate.
Qed.

(** The level a text is parsed to depends on its lower-cased form only. *)
Lemma UnmarshalText_ToLower (l : zapcore.Level) (text : string) :
  zapcore.UnmarshalText l text =
  match levelOf levelNames (zapcore.ToLower text) with
  | Some lvl => (lvl, None)
  | None => (l, Some (errUnrecognizedLevel text))
  end.
Proof.
  rewrite UnmarshalText_table.
  destruct (levelOf levelNames text) as [lvl|] eqn:H; [|reflexivity].
  now rewrite (levelOf_ToLower _ _ H).
Qed.

Lemma lower_not_upper (c : ascii) : is_upper (zapcore.lower c) = false.
Proof.
  destruct c as [[] [] [] [] [] [] [] []]; reflexivity.
Qed.

(** A lower-cased text that is not empty starts with a byte that is not an
    upper-case ASCII letter. *)
Lemma ToLower_cons (c : ascii) (r : string) :
  exists c' r', zapcore.ToLower (String c r) = String c' r' /\ is_upper c' = false.
Proof.
  destruct r as [|c1 r1]; simpl.
  - eexists _, _. split; [reflexivity | apply lower_not_upper].
  - destruct (zapcore.byte_is c 196 && zapcore.byte_is c1 176).
    + eexists _, _. split; reflexivity.
    + destruct r1 as [|c2 r2].
      * eexists _, _. split; [reflexivity | apply lower_not_upper].
      * destruct (zapcore.byte_is c 226 && zapcore.byte_is c1 132 &&
                  zapcore.byte_is c2 170).
        -- eexists _, _. split; reflexivity.
        -- eexists _, _. split; [reflexivity | apply lower_not_upper].
Qed.

(** On a text that does not start with an upper-case ASCII letter the
    switch of the parser and the table of severity names agree. *)
Lemma levelOf_not_upper (c : ascii) (r : string) :
  is_upper c = false ->
  levelOf levelNames (String c r) = levelOf severityNames (String c r).
Proof.
  intros Hup.
  destruct c as [[] [] [] [] [] [] [] []]; try discriminate Hup;
    cbn; try reflexivity; repeat (destruct (r =? _)%string; try reflexivity).
Qed.

(** The parser against the severity names: a text that names a severity
    is parsed to it, the empty text to the info level, and any other text
    is rejected, the receiver being kept. *)
Lemma UnmarshalText_known (l : zapcore.Level) (text : string) :
  zapcore.UnmarshalText l text =
  match knownSeverity text with
  | Some lvl => (lvl, None)
  | None =>
    if text =? "" then (zapcore.InfoLevel, None)
    else (l, Some (errUnrecognizedLevel text))
  end.
Proof.
  rewrite UnmarshalText_ToLower. unfold knownSeverity.
  destruct text as [|c r]; [reflexivity|].
  destruct (ToLower_cons c r) as (c' & r' & -> & Hup).
  rewrite (levelOf_not_upper c' r' Hup).
  destruct (levelOf severityNames (String c' r')); reflexivity.
Qed.

(** [New], case by case: the parse error, the engine's error, or a fresh
    cell holding [newLogger]. *)
Lemma New_cases (cfg : Config) (s : State) :
  match zapcore.UnmarshalText zapcore.InfoLevel (LogLevel cfg) with
  | (_, Some e) => New cfg s = Ret (nil, Some e) s
  | (lvl, None) =>
    if buildable cfg s then
      New cfg s =
      Ret (Some (List.length (heap s)), None)
          (set_heap (set_nextCore s (S (nextCore s)))
                    (heap s ++ [newLogger cfg lvl (nextCore s)]))
    else
      exists e, New cfg s = Ret (nil, Some e) s /\
                forall text, e <> errUnrecognizedLevel text
  end.
Proof.
  unfold New, buildable, encodingOf.
  assert (HL : LogLevel (if Encoding cfg =? "" then set_Encoding cfg "json" else cfg)
               = LogLevel cfg) by (destruct (Encoding cfg =? ""); reflexivity).
  rewrite HL; clear HL.
  destruct (zapcore.UnmarshalText zapcore.InfoLevel (LogLevel cfg)) as [lvl [e|]].
  - reflexivity.
  - assert (HE : Encoding (if Encoding cfg =? "" then set_Encoding cfg "json" else cfg)
                 = if Encoding cfg =? "" then "json" else Encoding cfg)
      by (destruct (Encoding cfg =? ""); reflexivity).
    assert (HD : Development (if Encoding cfg =? "" then set_Encoding cfg "json" else cfg)
                 = Development cfg) by (destruct (Encoding cfg =? ""); reflexivity).
    assert (HO : OutputPaths (if Encoding cfg =? "" then set_Encoding cfg "json" else cfg)
                 = OutputPaths cfg) by (destruct (Encoding cfg =? ""); reflexivity).
    rewrite HE, HD, HO; clear HE HD HO.
    unfold bind, zapfx.Build, zapfx.openSinks; simpl.
    destruct (zapfx.newEncoder (if Encoding cfg =? "" then "json" else Encoding cfg) s)
      as [e|] eqn:Henc.
    + exists e. split; [reflexivity|].
      intros text ->. unfold zapfx.newEncoder in Henc.
      destruct (_ =? "") in Henc; [discriminate|].
      destruct (_ || _) in Henc; [discriminate|].
      destruct (encoders s _) in Henc; discriminate.
    + destruct (zapfx.Open (OutputPaths cfg ++ ["stderr"]) s) as [e|] eqn:Hop.
      * assert (Hf : forallb (zapfx.newSink s) (OutputPaths cfg) = false).
        { destruct (forallb (zapfx.newSink s) (OutputPaths cfg)) eqn:Hf; [|reflexivity].
          assert (Hs : zapfx.Open (OutputPaths cfg ++ ["stderr"]) s = None).
          { apply Open_ok. rewrite forallb_snoc, Hf. reflexivity. }
          congruence. }
        rewrite Hf. exists e. split; [reflexivity|].
        intros text ->. unfold zapfx.Open in Hop.
        destruct (filter _ _) in Hop; discriminate.
      * apply Open_ok in Hop. rewrite forallb_snoc in Hop.
        apply andb_true_iff in Hop as [Hf _]. rewrite Hf.
        reflexivity.
Qed.

Lemma nth_error_snoc {A : Type} (l : list A) (a : A) :
  nth_error (l ++ [a]) (List.length l) = Some a.
Proof.
  rewrite nth_error_app2 by apply Nat.le_refl.
  now rewrite Nat.sub_diag.
Qed.

(** When [New] returns a logger, the level text was accepted, the engine
    accepted the configuration, there is no error, and the logger is the
    last cell of the heap, holding [newLogger]. *)
Lemma New_success (cfg : Config) (s s' : State) (l : nat) (err : option error) :
  New cfg s = Ret (Some l, err) s' ->
  exists lvl,
    zapcore.UnmarshalText zapcore.InfoLevel (LogLevel cfg) = (lvl, None) /\
    buildable cfg s = true /\
    err = None /\
    l = List.length (heap s) /\
    s' = set_heap (set_nextCore s (S (nextCore s)))
                  (heap s ++ [newLogger cfg lvl (nextCore s)]) /\
    nth_error (heap s') l = Some (newLogger cfg lvl (nextCore s)).
Proof.
  intros H. pose proof (New_cases cfg s) as C.
  destruct (zapcore.UnmarshalText zapcore.InfoLevel (LogLevel cfg)) as [lvl [e|]].
  - rewrite C in H. discriminate.
  - destruct (buildable cfg s).
    + rewrite C in H. injection H as <- <- <-.
      exists lvl. repeat split; try reflexivity.
      simpl. apply nth_error_snoc.
    + destruct C as [e [C _]]. rewrite C in H. discriminate.
Qed.

Lemma skipn_app_length {A : Type} (l new : list A) :
  skipn (List.length l) (l ++ new) = new.
Proof.
  induction l as [|a l IH]; simpl; [reflexivity | exact IH].
Qed.

(** A call without key/value arguments on a logger that does not sample:
    one record when the level is enabled, none otherwise. *)
Lemma log_plain (z : zap.Logger) (lvl : zapcore.Level) (msg : string) (s : State) :
  zap.sampling z = None ->
  written (stateOf (SugaredLogger.log z lvl msg [] s)) =
  written s ++
    (if zapcore.Enabled (zap.level z) lvl then [recordOf z lvl (clock s) msg []] else []).
Proof.
  intros Hs.
  unfold SugaredLogger.log, bind, zapfx.check, zapfx.Write, SugaredLogger.sweetenFields,
    ret, recordOf.
  rewrite Hs.
  destruct (zapcore.Enabled (zap.level z) lvl) eqn:He;
    destruct lvl; simpl; try rewrite app_nil_r; try reflexivity;
    destruct (zap.development z); simpl; try rewrite app_nil_r; reflexivity.
Qed.

(** C1 (amended): for every configuration whose level text names a known
    severity and whose assembled configuration the engine accepts, [New]
    succeeds and the minimum severity of the returned logger is the named
    level: a record is written exactly when its level is at least that one;
    when the engine rejects the configuration, [New] fails and returns no
    logger.  For every configuration whose level text is not empty and
    names no known severity, [New] fails with the parser's error and returns
    no logger.  (The empty level text is read as the info level.) *)
Theorem New_level (cfg : Config) (s : State) :
  match knownSeverity (LogLevel cfg) with
  | Some lvl => NewAtLevel cfg s lvl
  | None =>
    if LogLevel cfg =? "" then NewAtLevel cfg s zapcore.InfoLevel
    else New cfg s = Ret (nil, Some (errUnrecognizedLevel (LogLevel cfg))) s
  end.
Proof.
  pose proof (New_cases cfg s) as C.
  rewrite UnmarshalText_known in C.
  assert (H : forall lvl,
             (if buildable cfg s
              then New cfg s =
                   Ret (Some (List.length (heap s)), None)
                       (set_heap (set_nextCore s (S (nextCore s)))
                                 (heap s ++ [newLogger cfg lvl (nextCore s)]))
              else exists e, New cfg s = Ret (nil, Some e) s /\
                             forall text, e <> errUnrecognizedLevel text) ->
             NewAtLevel cfg s lvl).
  { intros lvl B. unfold NewAtLevel. destruct (buildable cfg s).
    - eexists _, _, (newLogger cfg lvl (nextCore s)).
      split; [exact B|]. split; [simpl; apply nth_error_snoc|].
      split; [reflexivity|].
      intros lvl' msg st Hz.
      unfold emitted, log, bind, deref. rewrite Hz.
      rewrite log_plain by reflexivity. apply skipn_app_length.
    - destruct B as [e [B _]]. exists e, s. exact B. }
  destruct (knownSeverity (LogLevel cfg)) as [lvl|].
  - apply H. exact C.
  - destruct (LogLevel cfg =? ""); [apply H|]; exact C.
Qed.

(** C1, as stated, fails twice.  The level text "info" names a known
    severity, and [New] fails all the same, because no encoder is registered
    under the configured name "xml".  The empty level text names no
    severity, and [New] succeeds all the same. *)
Lemma New_level_claim_fails :
  knownSeverity (LogLevel cfg_xml) = Some zapcore.InfoLevel /\
  New cfg_xml st0 = Ret (nil, Some (errNoEncoderRegistered "xml")) st0 /\
  knownSeverity (LogLevel cfg_empty) = None /\
  exists l s', New cfg_empty st0 = Ret (Some l, None) s'.
Proof.
  split; [reflexivity|]. split; [reflexivity|]. split; [reflexivity|].
  exists 0, (stateOf (New cfg_empty st0)). reflexivity.
Qed.

(** The parser knows the severity named with the letter U+0130, whose
    lower case is i, and with "warning". *)
Example knownSeverity_examples :
  knownSeverity text_dotted_INFO = Some zapcore.InfoLevel /\
  knownSeverity "Warning" = Some zapcore.WarnLevel /\
  knownSeverity "verbose" = None.
Proof. repeat split. Qed.

(** C2 (amended): [New] starts from the production preset when the
    development flag is false and from the development preset when it is
    true, and only then; in both cases it then sets the time encoder to
    ISO-8601 and the level encoder to the colorized capital names. *)
Theorem New_encoderConfig (cfg : Config) (s s' : State) (l : nat) (err : option error) :
  New cfg s = Ret (Some l, err) s' ->
  exists z,
    nth_error (heap s') l = Some z /\
    zap.encoderConfig z =
      zapcore.set_EncodeLevel
        (zapcore.set_EncodeTime
           (if Development cfg then zap.NewDevelopmentEncoderConfig
            else zap.NewProductionEncoderConfig)
           zapcore.ISO8601TimeEncoder)
        zapcore.CapitalColorLevelEncoder /\
    (zap.encoderConfig z =
       zapcore.set_EncodeLevel
         (zapcore.set_EncodeTime zap.NewDevelopmentEncoderConfig zapcore.ISO8601TimeEncoder)
         zapcore.CapitalColorLevelEncoder ->
     Development cfg = true) /\
    zapcore.EncodeTime (zap.encoderConfig z) = zapcore.ISO8601TimeEncoder /\
    zapcore.EncodeLevel (zap.encoderConfig z) = zapcore.CapitalColorLevelEncoder.
Proof.
  intros H. apply New_success in H as (lvl & _ & _ & _ & _ & _ & Hz).
  eexists. split; [exact Hz|]. simpl.
  split; [reflexivity|]. split; [|split; reflexivity].
  destruct (Development cfg); [reflexivity | discriminate].
Qed.

(** The encoder configuration of the logger built from [cfg_info]. *)
Lemma New_encoderConfig_witness :
  New cfg_info st0 = Ret (Some 0, None) st_info /\
  exists z,
    nth_error (heap st_info) 0 = Some z /\
    zap.encoderConfig z =
      zapcore.set_EncodeLevel
        (zapcore.set_EncodeTime
           (if Development cfg_info then zap.NewDevelopmentEncoderConfig
            else zap.NewProductionEncoderConfig)
           zapcore.ISO8601TimeEncoder)
        zapcore.CapitalColorLevelEncoder /\
    (zap.encoderConfig z =
       zapcore.set_EncodeLevel
         (zapcore.set_EncodeTime zap.NewDevelopmentEncoderConfig zapcore.ISO8601TimeEncoder)
         zapcore.CapitalColorLevelEncoder ->
     Development cfg_info = true) /\
    zapcore.EncodeTime (zap.encoderConfig z) = zapcore.ISO8601TimeEncoder /\
    zapcore.EncodeLevel (zap.encoderConfig z) = zapcore.CapitalColorLevelEncoder.
Proof.
  split; [reflexivity|].
  apply (New_encoderConfig cfg_info st0 st_info 0 None). reflexivity.
Defined.

(** C2, as stated, fails: with the development flag false the logger
    still has the colorized level names, which are not the level encoder of
    the production preset. *)
Lemma New_production_colorized :
  Development cfg_info = false /\
  New cfg_info st0 = Ret (Some 0, None) st_info /\
  exists z,
    nth_error (heap st_info) 0 = Some z /\
    zapcore.EncodeLevel (zap.encoderConfig z) = zapcore.CapitalColorLevelEncoder /\
    zapcore.EncodeLevel zap.NewProductionEncoderConfig = zapcore.LowercaseLevelEncoder /\
    zap.encoderConfig z <>
      zapcore.set_EncodeTime zap.NewProductionEncoderConfig zapcore.ISO8601TimeEncoder.
Proof.
  split; [reflexivity|]. split; [reflexivity|].
  eexists. split; [reflexivity|]. split; [reflexivity|]. split; [reflexivity|].
  discriminate.
Qed.

(** C3: the logger built by [New] writes to the configured output paths
    followed by "stderr", and its error output is "stderr" alone. *)
Theorem New_output_sinks (cfg : Config) (s s' : State) (l : nat) (err : option error) :
  New cfg s = Ret (Some l, err) s' ->
  exists z,
    nth_error (heap s') l = Some z /\
    zap.outputPaths z = OutputPaths cfg ++ ["stderr"] /\
    zap.errorOutput z = ["stderr"].
Proof.
  intros H. apply New_success in H as (lvl & _ & _ & _ & _ & _ & Hz).
  eexists. split; [exact Hz|]. split; reflexivity.
Qed.

(** The sinks of the logger built from [cfg_info]. *)
Lemma New_output_sinks_witness :
  New cfg_info st0 = Ret (Some 0, None) st_info /\
  exists z,
    nth_error (heap st_info) 0 = Some z /\
    zap.outputPaths z = ["stdout"; "stderr"] /\
    zap.errorOutput z = ["stderr"].
Proof.
  split; [reflexivity|].
  apply (New_output_sinks cfg_info st0 st_info 0 None). reflexivity.
Defined.

(** C9: the empty level text is accepted by the level parser as the info
    level, so [New] does not fail on it: the logger it returns has minimum
    severity info, and an error it returns is the engine's. *)
Theorem New_empty_level (cfg : Config) (s : State) :
  LogLevel cfg = "" ->
  zapcore.UnmarshalText zapcore.InfoLevel (LogLevel cfg) = (zapcore.InfoLevel, None) /\
  if buildable cfg s then
    exists l s' z,
      New cfg s = Ret (Some l, None) s' /\
      nth_error (heap s') l = Some z /\
      zap.level z = zapcore.InfoLevel
  else
    exists e,
      New cfg s = Ret (nil, Some e) s /\
      forall text, e <> errUnrecognizedLevel text.
Proof.
  intros He. pose proof (New_cases cfg s) as C. rewrite He in *.
  split; [reflexivity|].
  change (zapcore.UnmarshalText zapcore.InfoLevel "")
    with (zapcore.InfoLevel, @None error) in C.
  cbv iota beta in C.
  destruct (buildable cfg s).
  - eexists _, _, _. split; [exact C|]. split; [simpl; apply nth_error_snoc|].
    reflexivity.
  - exact C.
Qed.

(** [cfg_empty] has the empty level text, and [New] builds an info-level
    logger from it. *)
Lemma New_empty_level_witness :
  LogLevel cfg_empty = "" /\
  zapcore.UnmarshalText zapcore.InfoLevel (LogLevel cfg_empty) = (zapcore.InfoLevel, None) /\
  exists l s' z,
    New cfg_empty st0 = Ret (Some l, None) s' /\
    nth_error (heap s') l = Some z /\
    zap.level z = zapcore.InfoLevel.
Proof.
  split; [reflexivity|].
  exact (New_empty_level cfg_empty st0 eq_refl).
Defined.

(** ** What any logging call does to the state *)

Lemma grows_refl (z : zap.Logger) (s : State) : grows z s s.
Proof.
  repeat split. exists []. split; [now rewrite app_nil_r | constructor].
Qed.

Lemma grows_trans (z : zap.Logger) (s1 s2 s3 : State) :
  grows z s1 s2 -> grows z s2 s3 -> grows z s1 s3.
Proof.
  intros (Hh1 & Hc1 & n1 & Hw1 & Hf1) (Hh2 & Hc2 & n2 & Hw2 & Hf2).
  split; [congruence|]. split; [congruence|].
  exists (n1 ++ n2). split.
  - rewrite Hw2, Hw1. now rewrite app_assoc.
  - apply Forall_app. now split.
Qed.

Lemma grows_counters (z : zap.Logger) (s : State) (cs : Counters) :
  grows z s (set_counters s cs).
Proof.
  repeat split. exists []. split; [simpl; now rewrite app_nil_r | constructor].
Qed.

Lemma grows_write (z : zap.Logger) (s : State) (e : zapcore.Entry)
      (fields : list zapcore.Field) :
  grows z s (set_written s (written s ++
    [{| zapcore.Ent := e; zapcore.Fields := zap.context z ++ fields;
        zapcore.Sinks := zap.outputPaths z |}])).
Proof.
  repeat split. eexists. split; [reflexivity|].
  constructor; [|constructor]. now exists fields.
Qed.

(** [check] changes the sampler's counters at most. *)
Lemma check_grows (z : zap.Logger) (lvl : zapcore.Level) (msg : string) (s : State) :
  exists ce s', zapfx.check z lvl msg s = Ret ce s' /\ grows z s s'.
Proof.
  unfold zapfx.check.
  destruct (_ && _); [eexists _, _; split; [reflexivity | apply grows_refl]|].
  destruct (zapcore.Enabled (zap.level z) lvl).
  - destruct (zap.sampling z) as [sc|].
    + destruct (zapfx.sample sc _ _ _ _ _) as [keep cs].
      destruct keep; [eexists _, _; split; [reflexivity | apply grows_counters]|].
      destruct lvl; try destruct (zap.development z);
        eexists _, _; (split; [reflexivity | apply grows_counters]).
    + eexists _, _; split; [reflexivity | apply grows_refl].
  - destruct lvl; try destruct (zap.development z);
      eexists _, _; (split; [reflexivity | apply grows_refl]).
Qed.

(** [Write] adds at most one record, with the standing fields first. *)
Lemma Write_grows (z : zap.Logger) (ce : zapcore.CheckedEntry)
      (fields : list zapcore.Field) (s : State) :
  grows z s (stateOf (zapfx.Write z ce fields s)).
Proof.
  unfold zapfx.Write.
  destruct (zapcore.ceCores ce), (zapcore.ceShould ce); simpl;
    first [apply grows_write | apply grows_refl].
Qed.

(** A call at error level on the base logger returns. *)
Lemma Error_returns (z : zap.Logger) (msg : string) (fields : list zapcore.Field)
      (s : State) :
  exists s', zapfx.Error z msg fields s = Ret tt s' /\ grows z s s'.
Proof.
  unfold zapfx.Error, bind, zapfx.check. simpl.
  destruct (zapcore.Enabled (zap.level z) zapcore.ErrorLevel); simpl.
  - destruct (zap.sampling z) as [sc|].
    + destruct (zapfx.sample sc _ _ _ _ _) as [keep cs]. destruct keep.
      * eexists. split; [reflexivity|].
        eapply grows_trans; [apply (grows_counters z s cs) | apply grows_write].
      * eexists. split; [reflexivity | apply grows_counters].
    + eexists. split; [reflexivity | apply grows_write].
  - eexists. split; [reflexivity | apply grows_refl].
Qed.

Lemma sweetenLoop_returns (z : zap.Logger) (n : nat) :
  forall (args : list any), (List.length args <= n)%nat ->
  forall i seenError fields invalid s,
  exists r s',
    SugaredLogger.sweetenLoop z i args seenError fields invalid s = Ret r s' /\
    grows z s s'.
Proof.
  induction n as [|n IH]; intros args Hlen i seenError fields invalid s.
  - destruct args; [|simpl in Hlen; lia].
    eexists _, _. split; [reflexivity | apply grows_refl].
  - assert (Hpair : forall key val rest, args = key :: val :: rest ->
              forall i' f' inv', exists r s',
                SugaredLogger.sweetenLoop z i' rest seenError f' inv' s = Ret r s' /\
                grows z s s').
    { intros key val rest -> i' f' inv'. apply IH. simpl in Hlen. lia. }
    assert (Hodd : forall x, exists r s',
              bind (zapfx.Error z SugaredLogger._oddNumberErrMsg [zap.Any "ignored" x])
                   (fun _ => ret (fields, invalid)) s = Ret r s' /\ grows z s s').
    { intros x. unfold bind.
      destruct (Error_returns z SugaredLogger._oddNumberErrMsg [zap.Any "ignored" x] s)
        as (s1 & -> & G).
      eexists _, _. split; [reflexivity | exact G]. }
    destruct args as [|a rest].
    + eexists _, _. split; [reflexivity | apply grows_refl].
    + assert (Hrest : (List.length rest <= n)%nat) by (simpl in Hlen; lia).
      destruct a;
        try (destruct rest as [|val rest']; simpl;
             [apply Hodd | eapply Hpair; reflexivity]).
      * (* an error *)
        simpl. destruct seenError.
        -- unfold bind.
           destruct (Error_returns z SugaredLogger._multipleErrMsg [zap.Error e] s)
             as (s1 & -> & G).
           destruct (IH rest Hrest (i + 1) true fields invalid s1) as (r & s2 & -> & G2).
           eexists _, _. split; [reflexivity | eapply grows_trans; eassumption].
        -- apply IH. exact Hrest.
      * (* a field *)
        simpl. apply IH. exact Hrest.
Qed.

Lemma sweetenFields_returns (z : zap.Logger) (args : list any) (s : State) :
  exists fields s',
    SugaredLogger.sweetenFields z args s = Ret fields s' /\ grows z s s'.
Proof.
  unfold SugaredLogger.sweetenFields.
  destruct args as [|a rest].
  - eexists _, _. split; [reflexivity | apply grows_refl].
  - unfold bind.
    destruct (sweetenLoop_returns z _ (a :: rest) (Nat.le_refl _) 0 false [] [] s)
      as ([fields invalid] & s1 & -> & G).
    simpl. destruct invalid as [|p invalid].
    + eexists _, _. split; [reflexivity | exact G].
    + destruct (Error_returns z SugaredLogger._nonStringKeyErrMsg
                  [zap.Array "invalid" (p :: invalid)] s1) as (s2 & -> & G2).
      eexists _, _. split; [reflexivity | eapply grows_trans; eassumption].
Qed.

(** Every record a call writes through [z] carries the standing fields of
    [z], whatever the level, the arguments and the way the call ends. *)
Lemma log_grows (z : zap.Logger) (lvl : zapcore.Level) (msg : string)
      (kv : list any) (s : State) :
  grows z s (stateOf (SugaredLogger.log z lvl msg kv s)).
Proof.
  unfold SugaredLogger.log.
  destruct (_ && _); [apply grows_refl|].
  unfold bind.
  destruct (check_grows z lvl msg s) as (ce & s1 & -> & G1).
  destruct ce as [ce|]; [|exact G1].
  destruct (sweetenFields_returns z kv s1) as (fields & s2 & -> & G2).
  eapply grows_trans; [exact G1|]. eapply grows_trans; [exact G2|].
  apply Write_grows.
Qed.

(** Below the dpanic level a call returns. *)
Lemma log_returns (z : zap.Logger) (lvl : zapcore.Level) (msg : string)
      (kv : list any) (s : State) :
  (zapcore.Level_toZ lvl < zapcore.Level_toZ zapcore.DPanicLevel)%Z ->
  exists s', SugaredLogger.log z lvl msg kv s = Ret tt s' /\ grows z s s'.
Proof.
  intros Hl.
  pose proof (log_grows z lvl msg kv s) as G.
  assert (exists s', SugaredLogger.log z lvl msg kv s = Ret tt s') as [s' E].
  { unfold SugaredLogger.log.
    destruct (_ && _); [eexists; reflexivity|].
    unfold bind.
    destruct (zapfx.check z lvl msg s) as [ce s1| |] eqn:Hc.
    2,3: destruct (check_grows z lvl msg s) as (? & ? & Hc' & _); congruence.
    destruct ce as [ce|]; [|eexists; reflexivity].
    destruct (sweetenFields_returns z kv s1) as (fields & s2 & -> & _).
    assert (Hs : zapcore.ceShould ce = zapcore.WriteThenNoop).
    { unfold zapfx.check in Hc.
      destruct lvl; simpl in Hl; try lia; simpl in Hc;
        destruct (zapcore.Enabled (zap.level z) _); simpl in Hc; try discriminate;
        destruct (zap.sampling z) as [sc|]; simpl in Hc;
        try (destruct (zapfx.sample sc _ _ _ _ _) as [[|] cs]; simpl in Hc);
        try discriminate; injection Hc as <- _; reflexivity. }
    unfold zapfx.Write. rewrite Hs. destruct (zapcore.ceCores ce); eexists; reflexivity. }
  rewrite E in G. exists s'. split; [exact E | exact G].
Qed.

Lemma emitted_grows {A : Type} (z : zap.Logger) (m : M A) (s : State) :
  grows z s (stateOf (m s)) ->
  written (stateOf (m s)) = written s ++ emitted m s /\
  Forall (carries z) (emitted m s).
Proof.
  intros (_ & _ & new & Hw & Hf). unfold emitted.
  rewrite Hw, skipn_app_length. now split.
Qed.

(** Logging through a pointer is logging on the object it points to. *)
Lemma log_deref (l : nat) (z : zap.Logger) (lvl : zapcore.Level) (msg : string)
      (kv : list any) (st : State) :
  nth_error (heap st) l = Some z ->
  log (Some l) lvl msg kv st = SugaredLogger.log z lvl msg kv st.
Proof.
  intros Hz. unfold log, bind, deref. now rewrite Hz.
Qed.

(** The records written through a pointer carry the standing fields of the
    object it points to. *)
Lemma log_emitted_carries (l : nat) (z : zap.Logger) (lvl : zapcore.Level)
      (msg : string) (kv : list any) (st : State) (r : zapcore.LogRecord) :
  nth_error (heap st) l = Some z ->
  In r (emitted (log (Some l) lvl msg kv) st) ->
  carries z r.
Proof.
  intros Hz Hin.
  assert (G : grows z st (stateOf (log (Some l) lvl msg kv st))).
  { rewrite (log_deref l z) by exact Hz. apply log_grows. }
  apply emitted_grows in G as [_ Hf].
  rewrite Forall_forall in Hf. now apply Hf.
Qed.

(** Without key/value arguments a record has the standing fields only. *)
Lemma log_emitted_plain (l : nat) (z : zap.Logger) (lvl : zapcore.Level)
      (msg : string) (st : State) (r : zapcore.LogRecord) :
  nth_error (heap st) l = Some z ->
  In r (emitted (log (Some l) lvl msg []) st) ->
  zapcore.Fields r = zap.context z.
Proof.
  intros Hz. unfold emitted. rewrite (log_deref l z) by exact Hz.
  unfold SugaredLogger.log.
  destruct (_ && _); [simpl; rewrite skipn_all; intros []|].
  unfold bind, zapfx.check.
  destruct (_ && _); [simpl; rewrite skipn_all; intros []|].
  assert (Hnil : forall s' : State, written s' = written st ->
            In r (skipn (List.length (written st)) (written s')) -> False).
  { intros s' ->. rewrite skipn_all. intros []. }
  assert (Hone : forall (s' : State) e, written s' = written st ->
            In r (skipn (List.length (written st))
                        (written s' ++
                         [{| zapcore.Ent := e; zapcore.Fields := zap.context z ++ [];
                             zapcore.Sinks := zap.outputPaths z |}])) ->
            zapcore.Fields r = zap.context z).
  { intros s' e ->. rewrite skipn_app_length. intros [<-|[]]. simpl. apply app_nil_r. }
  destruct (zapcore.Enabled (zap.level z) lvl).
  - destruct (zap.sampling z) as [sc|].
    + destruct (zapfx.sample sc _ _ _ _ _) as [[|] cs];
        destruct lvl; try destruct (zap.development z); simpl;
        first [ apply (Hone (set_counters st cs)); reflexivity
              | intros H; exfalso; apply (Hnil (set_counters st cs)); [reflexivity | exact H] ].
    + destruct lvl; try destruct (zap.development z); simpl;
        apply (Hone st); reflexivity.
  - destruct lvl; try destruct (zap.development z); simpl;
      intros H; exfalso; (apply (Hnil st); [reflexivity | exact H]).
Qed.

(** [With] on one well-formed pair: a fresh cell after all the others,
    holding the receiver's object with the field added; nothing is written
    and no other cell changes. *)
Lemma With_pair (l : nat) (z : zap.Logger) (k : string) (v : any) (s : State) :
  nth_error (heap s) l = Some z ->
  With (Some l) [AString k; v] s =
  Ret (Some (List.length (heap s)))
      (set_heap s (heap s ++ [zap.With z [zap.Any k v]])).
Proof.
  intros Hz. unfold With, bind, deref. rewrite Hz.
  destruct v; reflexivity.
Qed.

(** ** Logging with well-formed key/value arguments *)

Lemma sweetenLoop_pairs (z : zap.Logger) (ps : list (string * any)) :
  forall i seenError fields invalid s,
    SugaredLogger.sweetenLoop z i (kvs ps) seenError fields invalid s =
    Ret (fields ++ fieldsOf ps, invalid) s.
Proof.
  induction ps as [|[k v] ps IH]; intros i seenError fields invalid s.
  - simpl. now rewrite app_nil_r.
  - change (kvs ((k, v) :: ps)) with (AString k :: v :: kvs ps).
    cbn [SugaredLogger.sweetenLoop]. rewrite IH.
    simpl. now rewrite <- app_assoc.
Qed.

(** [sweetenFields] on well-formed arguments: the fields in their order,
    and nothing reported. *)
Lemma sweetenFields_pairs (z : zap.Logger) (ps : list (string * any)) (s : State) :
  SugaredLogger.sweetenFields z (kvs ps) s = Ret (fieldsOf ps) s.
Proof.
  destruct ps as [|[k v] ps]; [reflexivity|].
  unfold SugaredLogger.sweetenFields.
  change (kvs ((k, v) :: ps)) with (AString k :: v :: kvs ps).
  unfold bind.
  change (AString k :: v :: kvs ps) with (kvs ((k, v) :: ps)).
  rewrite sweetenLoop_pairs. reflexivity.
Qed.

(** With well-formed key/value arguments a record has the standing fields
    of the logger followed by exactly the fields of the call, whatever the
    level, the sampler and the way the call ends. *)
Lemma log_emitted_pairs (l : nat) (z : zap.Logger) (lvl : zapcore.Level)
      (msg : string) (ps : list (string * any)) (st : State) (r : zapcore.LogRecord) :
  nth_error (heap st) l = Some z ->
  In r (emitted (log (Some l) lvl msg (kvs ps)) st) ->
  zapcore.Fields r = zap.context z ++ fieldsOf ps.
Proof.
  intros Hz. unfold emitted. rewrite (log_deref l z) by exact Hz.
  unfold SugaredLogger.log.
  destruct (_ && _); [simpl; rewrite skipn_all; intros []|].
  unfold bind, zapfx.check.
  destruct (_ && _); [simpl; rewrite skipn_all; intros []|].
  assert (Hnil : forall s' : State, written s' = written st ->
            In r (skipn (List.length (written st)) (written s')) -> False).
  { intros s' ->. rewrite skipn_all. intros []. }
  assert (Hone : forall (s' : State) e, written s' = written st ->
            In r (skipn (List.length (written st))
                        (written s' ++
                         [{| zapcore.Ent := e;
                             zapcore.Fields := zap.context z ++ fieldsOf ps;
                             zapcore.Sinks := zap.outputPaths z |}])) ->
            zapcore.Fields r = zap.context z ++ fieldsOf ps).
  { intros s' e ->. rewrite skipn_app_length. intros [<-|[]]. reflexivity. }
  destruct (zapcore.Enabled (zap.level z) lvl).
  - destruct (zap.sampling z) as [sc|].
    + destruct (zapfx.sample sc _ _ _ _ _) as [[|] cs];
        destruct lvl; try destruct (zap.development z);
        cbv beta iota; rewrite ?sweetenFields_pairs; cbn [stateOf zapfx.Write
          zapcore.ceCores zapcore.ceShould zapcore.ceEnt written set_written];
        first [ apply (Hone (set_counters st cs)); reflexivity
              | intros H; exfalso; apply (Hnil (set_counters st cs));
                [reflexivity | exact H] ].
    + destruct lvl; try destruct (zap.development z);
        cbv beta iota; rewrite ?sweetenFields_pairs; cbn [stateOf zapfx.Write
          zapcore.ceCores zapcore.ceShould zapcore.ceEnt written set_written];
        apply (Hone st); reflexivity.
  - destruct lvl; try destruct (zap.development z);
      cbv beta iota; rewrite ?sweetenFields_pairs; cbn [stateOf zapfx.Write
        zapcore.ceCores zapcore.ceShould zapcore.ceEnt written set_written];
      intros H; exfalso; (apply (Hnil st); [reflexivity | exact H]).
Qed.

(** ** With and WithContext *)

(** C6 (amended): [With("k","v").With("k2","v2")] yields a new instance,
    and every record written through it afterwards contains k=v and k2=v2.
    The receiver is not mutated: its cell is what it was, nothing is
    written by the derivation, and every record written through the
    receiver afterwards starts with the receiver's own standing fields,
    followed, for a call with well-formed key/value arguments, by exactly
    the fields of that call (by nothing for a call without arguments).  So
    for such calls it contains k=v or k2=v2 only when the receiver carried
    that field already or the call passes it. *)
Theorem With_With (s : State) (l : nat) (z : zap.Logger) (k v k2 v2 : string) :
  nth_error (heap s) l = Some z ->
  exists l1 s1 l2 s2 z2,
    With (Some l) [AString k; AString v] s = Ret (Some l1) s1 /\
    With (Some l1) [AString k2; AString v2] s1 = Ret (Some l2) s2 /\
    nth_error (heap s2) l2 = Some z2 /\
    l2 <> l /\
    (forall st lvl msg kv r,
        nth_error (heap st) l2 = Some z2 ->
        In r (emitted (log (Some l2) lvl msg kv) st) ->
        In (zap.Any k (AString v)) (zapcore.Fields r) /\
        In (zap.Any k2 (AString v2)) (zapcore.Fields r)) /\
    nth_error (heap s2) l = Some z /\
    written s2 = written s /\
    (forall st lvl msg kv r,
        nth_error (heap st) l = Some z ->
        In r (emitted (log (Some l) lvl msg kv) st) ->
        exists fs, zapcore.Fields r = zap.context z ++ fs) /\
    (forall st lvl msg ps r,
        nth_error (heap st) l = Some z ->
        In r (emitted (log (Some l) lvl msg (kvs ps)) st) ->
        zapcore.Fields r = zap.context z ++ fieldsOf ps) /\
    (forall st lvl msg ps r f,
        nth_error (heap st) l = Some z ->
        In r (emitted (log (Some l) lvl msg (kvs ps)) st) ->
        In f (zapcore.Fields r) ->
        In f (zap.context z) \/ In f (fieldsOf ps)) /\
    (forall st lvl msg r,
        nth_error (heap st) l = Some z ->
        In r (emitted (log (Some l) lvl msg []) st) ->
        zapcore.Fields r = zap.context z).
Proof.
  intros Hz.
  assert (Hlt : (l < List.length (heap s))%nat)
    by (apply nth_error_Some; congruence).
  pose (z1 := zap.With z [zap.Any k (AString v)]).
  pose (s1 := set_heap s (heap s ++ [z1])).
  assert (Hz1 : nth_error (heap s1) (List.length (heap s)) = Some z1)
    by (simpl; apply nth_error_snoc).
  pose (z2 := zap.With z1 [zap.Any k2 (AString v2)]).
  exists (List.length (heap s)), s1, (List.length (heap s1)),
    (set_heap s1 (heap s1 ++ [z2])), z2.
  split; [apply With_pair; exact Hz|].
  split; [apply With_pair; exact Hz1|].
  split; [simpl; apply nth_error_snoc|].
  split; [simpl; rewrite length_app; simpl; lia|].
  split.
  { intros st lvl msg kv r Hst Hin.
    destruct (log_emitted_carries _ _ _ _ _ _ _ Hst Hin) as [fs ->].
    simpl. rewrite !in_app_iff. simpl. tauto. }
  split.
  { simpl. rewrite nth_error_app1 by (rewrite length_app; simpl; lia).
    rewrite nth_error_app1 by exact Hlt. exact Hz. }
  split; [reflexivity|].
  split; [|split; [|split]].
  - intros st lvl msg kv r Hst Hin.
    exact (log_emitted_carries _ _ _ _ _ _ _ Hst Hin).
  - intros st lvl msg ps r Hst Hin.
    exact (log_emitted_pairs _ _ _ _ _ _ _ Hst Hin).
  - intros st lvl msg ps r f Hst Hin Hf.
    rewrite (log_emitted_pairs _ _ _ _ _ _ _ Hst Hin) in Hf.
    apply in_app_or. exact Hf.
  - intros st lvl msg r Hst Hin.
    exact (log_emitted_plain _ _ _ _ _ _ Hst Hin).
Qed.

(** The two derivations from the logger built from [cfg_info]. *)
Lemma With_With_witness :
  nth_error (heap st_info) 0 = Some (newLogger cfg_info zapcore.InfoLevel 0) /\
  exists l1 s1 l2 s2 z2,
    With (Some 0) [AString "k"; AString "v"] st_info = Ret (Some l1) s1 /\
    With (Some l1) [AString "k2"; AString "v2"] s1 = Ret (Some l2) s2 /\
    nth_error (heap s2) l2 = Some z2 /\
    l2 <> 0 /\
    (forall st lvl msg kv r,
        nth_error (heap st) l2 = Some z2 ->
        In r (emitted (log (Some l2) lvl msg kv) st) ->
        In (zap.Any "k" (AString "v")) (zapcore.Fields r) /\
        In (zap.Any "k2" (AString "v2")) (zapcore.Fields r)) /\
    nth_error (heap s2) 0 = Some (newLogger cfg_info zapcore.InfoLevel 0) /\
    written s2 = written st_info /\
    (forall st lvl msg kv r,
        nth_error (heap st) 0 = Some (newLogger cfg_info zapcore.InfoLevel 0) ->
        In r (emitted (log (Some 0) lvl msg kv) st) ->
        exists fs, zapcore.Fields r =
                   zap.context (newLogger cfg_info zapcore.InfoLevel 0) ++ fs) /\
    (forall st lvl msg ps r,
        nth_error (heap st) 0 = Some (newLogger cfg_info zapcore.InfoLevel 0) ->
        In r (emitted (log (Some 0) lvl msg (kvs ps)) st) ->
        zapcore.Fields r =
          zap.context (newLogger cfg_info zapcore.InfoLevel 0) ++ fieldsOf ps) /\
    (forall st lvl msg ps r f,
        nth_error (heap st) 0 = Some (newLogger cfg_info zapcore.InfoLevel 0) ->
        In r (emitted (log (Some 0) lvl msg (kvs ps)) st) ->
        In f (zapcore.Fields r) ->
        In f (zap.context (newLogger cfg_info zapcore.InfoLevel 0)) \/
        In f (fieldsOf ps)) /\
    (forall st lvl msg r,
        nth_error (heap st) 0 = Some (newLogger cfg_info zapcore.InfoLevel 0) ->
        In r (emitted (log (Some 0) lvl msg []) st) ->
        zapcore.Fields r = zap.context (newLogger cfg_info zapcore.InfoLevel 0)).
Proof.
  split; [reflexivity|].
  apply (With_With st_info 0 (newLogger cfg_info zapcore.InfoLevel 0) "k" "v" "k2" "v2").
  reflexivity.
Defined.

(** C6, as stated, fails: a receiver that carries k=v already (the logger
    at address 1 of [st_kv]) keeps writing k=v after
    [With("k","v").With("k2","v2")] was derived from it. *)
Lemma With_receiver_keeps_its_fields :
  exists z s2 l2,
    nth_error (heap st_kv) 1 = Some z /\
    (l1 <- With (Some 1) [AString "k"; AString "v"] ;;
     With l1 [AString "k2"; AString "v2"]) st_kv = Ret (Some l2) s2 /\
    emitted (Infow (Some 1) "after" []) s2 =
      [recordOf z zapcore.InfoLevel 0 "after" []] /\
    In (zap.Any "k" (AString "v"))
       (zapcore.Fields (recordOf z zapcore.InfoLevel 0 "after" [])).
Proof.
  eexists _, _, _.
  split; [reflexivity|]. split; [reflexivity|]. split; [reflexivity|].
  left. reflexivity.
Qed.

(** C7 (amended): for a context whose "request_id" value is a string,
    [WithContext] returns a new instance with that id as a standing field,
    carried by every record written through it afterwards, and leaves the
    receiver as it was; for a nil context or a context without that key it
    returns the receiver itself, whatever the receiver, and the state is
    unchanged. *)
Theorem WithContext_spec (s : State) (l : nat) (z : zap.Logger) :
  nth_error (heap s) l = Some z ->
  (forall ctx id,
      context.Value ctx (AString "request_id") = AString id ->
      exists l1 s1 z1,
        WithContext (Some l) (Some ctx) s = Ret (Some l1) s1 /\
        l1 <> l /\
        nth_error (heap s1) l1 = Some z1 /\
        zap.context z1 = zap.context z ++ [zap.Any "request_id" (AString id)] /\
        nth_error (heap s1) l = Some z /\
        written s1 = written s /\
        forall st lvl msg kv r,
          nth_error (heap st) l1 = Some z1 ->
          In r (emitted (log (Some l1) lvl msg kv) st) ->
          In (zap.Any "request_id" (AString id)) (zapcore.Fields r)) /\
  (forall lp : ptr, WithContext lp None s = Ret lp s) /\
  (forall (lp : ptr) ctx,
      context.Value ctx (AString "request_id") = ANil ->
      WithContext lp (Some ctx) s = Ret lp s).
Proof.
  intros Hz.
  assert (Hlt : (l < List.length (heap s))%nat)
    by (apply nth_error_Some; congruence).
  split; [|split].
  - intros ctx id Hv.
    pose (z1 := zap.With z [zap.Any "request_id" (AString id)]).
    exists (List.length (heap s)), (set_heap s (heap s ++ [z1])), z1.
    split; [unfold WithContext; rewrite Hv; simpl; apply With_pair; exact Hz|].
    split; [lia|].
    split; [simpl; apply nth_error_snoc|].
    split; [reflexivity|].
    split; [simpl; rewrite nth_error_app1 by exact Hlt; exact Hz|].
    split; [reflexivity|].
    intros st lvl msg kv r Hst Hin.
    destruct (log_emitted_carries _ _ _ _ _ _ _ Hst Hin) as [fs ->].
    simpl. rewrite !in_app_iff. simpl. tauto.
  - reflexivity.
  - intros lp ctx Hv. unfold WithContext. rewrite Hv. reflexivity.
Qed.

(** The logger built from [cfg_info] and a context with request id abc. *)
Lemma WithContext_spec_witness :
  nth_error (heap st_info) 0 = Some (newLogger cfg_info zapcore.InfoLevel 0) /\
  context.Value ctx_abc (AString "request_id") = AString "abc" /\
  exists l1 s1 z1,
    WithContext (Some 0) (Some ctx_abc) st_info = Ret (Some l1) s1 /\
    l1 <> 0 /\
    nth_error (heap s1) l1 = Some z1 /\
    zap.context z1 =
      zap.context (newLogger cfg_info zapcore.InfoLevel 0) ++
      [zap.Any "request_id" (AString "abc")] /\
    nth_error (heap s1) 0 = Some (newLogger cfg_info zapcore.InfoLevel 0) /\
    written s1 = written st_info /\
    forall st lvl msg kv r,
      nth_error (heap st) l1 = Some z1 ->
      In r (emitted (log (Some l1) lvl msg kv) st) ->
      In (zap.Any "request_id" (AString "abc")) (zapcore.Fields r).
Proof.
  split; [reflexivity|]. split; [reflexivity|].
  apply (proj1 (WithContext_spec st_info 0 (newLogger cfg_info zapcore.InfoLevel 0)
                                 eq_refl) ctx_abc "abc").
  reflexivity.
Defined.

(** C7, as stated, fails: this context carries a "request_id" value, the
    number 42, and [WithContext] returns the receiver itself, with no field
    attached and no new instance. *)
Lemma WithContext_number_returns_receiver :
  context.Value [(AString "request_id", AInt 42)] (AString "request_id") = AInt 42 /\
  WithContext (Some 0) (Some [(AString "request_id", AInt 42)]) st_info =
    Ret (Some 0) st_info.
Proof. split; reflexivity. Qed.

(** C10: when the value stored under "request_id" is present and is not a
    string, [WithContext] returns the receiver itself and the state is
    unchanged: it neither panics nor derives an instance. *)
Theorem WithContext_not_a_string (lp : ptr) (ctx : list (any * any)) (v : any)
        (s : State) :
  context.Value ctx (AString "request_id") = v ->
  v <> ANil ->
  (forall id, v <> AString id) ->
  WithContext lp (Some ctx) s = Ret lp s.
Proof.
  intros Hv _ Hns. unfold WithContext. rewrite Hv.
  destruct v; try reflexivity.
  exfalso. eapply Hns. reflexivity.
Qed.

(** A context whose request id is the number 42. *)
Lemma WithContext_not_a_string_witness :
  WithContext (Some 0) (Some [(AString "request_id", AInt 42)]) st_info =
    Ret (Some 0) st_info.
Proof.
  apply (WithContext_not_a_string (Some 0) [(AString "request_id", AInt 42)] (AInt 42)).
  - reflexivity.
  - discriminate.
  - discriminate.
Defined.

(** ** NewDefault *)

(** C8: [NewDefault] returns a non-nil logger in every state of the
    process: building the production configuration cannot fail (its
    encoding "json" is built in and its only sink is "stderr"), so the
    error that [NewDefault] drops is always nil and the nil dereference in
    [Sugar] is never reached.  The logger is usable: a logging call below
    the dpanic level through it returns. *)
Theorem NewDefault_total (s : State) :
  exists l s' z,
    zapfx.NewProduction s = Ret (Some z, None) (set_nextCore s (S (nextCore s))) /\
    NewDefault s = Ret (Some l) s' /\
    nth_error (heap s') l = Some z /\
    zap.level z = zapcore.InfoLevel /\
    forall st lvl msg kv,
      nth_error (heap st) l = Some z ->
      (zapcore.Level_toZ lvl < zapcore.Level_toZ zapcore.DPanicLevel)%Z ->
      exists st', log (Some l) lvl msg kv st = Ret tt st'.
Proof.
  eexists _, _, _.
  split; [reflexivity|]. split; [reflexivity|].
  split; [simpl; apply nth_error_snoc|].
  split; [reflexivity|].
  intros st lvl msg kv Hst Hl.
  rewrite (log_deref _ _ lvl msg kv st Hst).
  match goal with
  | |- exists st', SugaredLogger.log ?z _ _ _ _ = _ =>
    destruct (log_returns z lvl msg kv st Hl) as (st' & E & _)
  end.
  exists st'. exact E.
Qed.

(** ** The interceptors *)

Lemma emit_nil (s : State) : emit s [] = s.
Proof. destruct s. unfold emit, set_written. simpl. now rewrite app_nil_r. Qed.

Lemma emit_emit (s : State) (a b : list zapcore.LogRecord) :
  emit (emit s a) b = emit s (a ++ b).
Proof. unfold emit, set_written. simpl. now rewrite app_assoc. Qed.

(** A call below the dpanic level on a logger that does not sample, with
    key/value arguments that [sweetenFields] turns into [fields] without
    reporting anything: one record when the level is enabled, none
    otherwise. *)
Lemma log_unsampled (z : zap.Logger) (lvl : zapcore.Level) (msg : string)
      (kv : list any) (fields : list zapcore.Field) (s : State) :
  zap.sampling z = None ->
  (zapcore.Level_toZ lvl < zapcore.Level_toZ zapcore.DPanicLevel)%Z ->
  (forall s', SugaredLogger.sweetenFields z kv s' = Ret fields s') ->
  SugaredLogger.log z lvl msg kv s =
  Ret tt (emit s (if zapcore.Enabled (zap.level z) lvl
                  then [recordOf z lvl (clock s) msg fields] else [])).
Proof.
  intros Hs Hl Hk.
  unfold SugaredLogger.log, bind, zapfx.check. rewrite Hs.
  destruct (zapcore.Enabled (zap.level z) lvl) eqn:He.
  - destruct lvl; simpl in Hl; try lia; simpl; rewrite Hk; reflexivity.
  - rewrite emit_nil.
    destruct lvl; simpl in Hl; try lia; reflexivity.
Qed.

(** The loop over the accumulated errors: one record at error level per
    error, each with the error's message and the same fields. *)
Lemma forEach_Errorw (log : nat) (z : zap.Logger) (kv : list any)
      (fields : list zapcore.Field) (es : list string) :
  zap.sampling z = None ->
  (forall s', SugaredLogger.sweetenFields z kv s' = Ret fields s') ->
  forall s,
    nth_error (heap s) log = Some z ->
    forEach es (fun e => Errorw (Some log) e kv) s =
    Ret tt (emit s (if zapcore.Enabled (zap.level z) zapcore.ErrorLevel
                    then map (fun e => recordOf z zapcore.ErrorLevel (clock s) e fields) es
                    else [])).
Proof.
  intros Hs Hk. induction es as [|e es IH]; intros s Hz.
  - simpl. unfold ret. destruct (zapcore.Enabled _ _); now rewrite emit_nil.
  - simpl. unfold bind at 1. unfold Errorw, bind, deref. rewrite Hz.
    unfold SugaredLogger.Errorw.
    rewrite (log_unsampled z zapcore.ErrorLevel e kv fields s Hs) by
      (try exact Hk; simpl; lia).
    rewrite IH by exact Hz.
    rewrite emit_emit.
    destruct (zapcore.Enabled _ _); reflexivity.
Qed.

(** C4 (amended): for a request through the interceptor whose handler
    chain returns, with a logger that does not sample (as every logger
    built by [New]): if the error list is empty after the chain ran, exactly
    one Info record is written when the logger's minimum severity admits
    the info level, with status, method, path, query, client IP, user agent
    and latency, and no Error record; if the list is not empty, one Error
    record per error is written when the minimum severity admits the error
    level, with those same fields, and no Info record.  A record below the
    logger's minimum severity is not written. *)
Theorem GinLogger_records (log : nat) (z : zap.Logger)
        (Next : gin.Context -> M gin.Context) (c c' : gin.Context) (s s1 : State) :
  Next c s = Ret c' s1 ->
  nth_error (heap s1) log = Some z ->
  zap.sampling z = None ->
  GinLogger (Some log) Next c s =
  Ret c'
    (emit s1
       (let fields :=
          httpFields c' (gin.Path (gin.URL_ (gin.Request_ c)))
                     (gin.RawQuery (gin.URL_ (gin.Request_ c)))
                     (clock s1 - clock s) in
        match gin.Errors c' with
        | [] =>
          if zapcore.Enabled (zap.level z) zapcore.InfoLevel
          then [recordOf z zapcore.InfoLevel (clock s1) "HTTP request" fields]
          else []
        | es =>
          if zapcore.Enabled (zap.level z) zapcore.ErrorLevel
          then map (fun e => recordOf z zapcore.ErrorLevel (clock s1) (gin.Err e) fields) es
          else []
        end)).
Proof.
  intros HN Hz Hs.
  unfold GinLogger, bind at 1. unfold time_Now at 1.
  unfold bind at 1. rewrite HN.
  unfold bind at 1. unfold time_Now at 1.
  destruct (gin.Errors c') as [|e es] eqn:He.
  - simpl. unfold bind at 1. unfold Infow, bind, deref. rewrite Hz.
    unfold SugaredLogger.Infow.
    rewrite (log_unsampled z zapcore.InfoLevel _ _
               (httpFields c' (gin.Path (gin.URL_ (gin.Request_ c)))
                           (gin.RawQuery (gin.URL_ (gin.Request_ c)))
                           (clock s1 - clock s)) s1 Hs)
      by (try reflexivity; simpl; lia).
    reflexivity.
  - change (Nat.ltb 0 (List.length (e :: es))) with true. cbv iota.
    unfold bind at 1.
    rewrite (forEach_Errorw log z _
               (httpFields c' (gin.Path (gin.URL_ (gin.Request_ c)))
                           (gin.RawQuery (gin.URL_ (gin.Request_ c)))
                           (clock s1 - clock s))
               (gin.Errors_Errors (e :: es)) Hs) by (try reflexivity; exact Hz).
    unfold gin.Errors_Errors. rewrite map_map. reflexivity.
Qed.

(** The request of [req_foo] through a chain that does nothing, with the
    info-level logger of [st_info]: one Info record. *)
Lemma GinLogger_records_witness :
  ret req_foo st_info = Ret req_foo st_info /\
  nth_error (heap st_info) 0 = Some (newLogger cfg_info zapcore.InfoLevel 0) /\
  zap.sampling (newLogger cfg_info zapcore.InfoLevel 0) = None /\
  GinLogger (Some 0) ret req_foo st_info =
  Ret req_foo
      (emit st_info
         [recordOf (newLogger cfg_info zapcore.InfoLevel 0) zapcore.InfoLevel 0
                   "HTTP request" (httpFields req_foo "/foo" "x=1" 0)]).
Proof.
  split; [reflexivity|]. split; [reflexivity|]. split; [reflexivity|].
  exact (GinLogger_records 0 (newLogger cfg_info zapcore.InfoLevel 0) ret
                           req_foo req_foo st_info st_info eq_refl eq_refl eq_refl).
Defined.

(** C4, as stated, fails: the logger at address 0 of [st_error] was built
    by [New] with level "error"; the request has no error, and the
    interceptor writes no Info record (it writes nothing). *)
Lemma GinLogger_info_below_level :
  (exists z, nth_error (heap st_error) 0 = Some z /\
             zap.level z = zapcore.ErrorLevel) /\
  gin.Errors req_foo = [] /\
  GinLogger (Some 0) ret req_foo st_error = Ret req_foo st_error /\
  emitted (GinLogger (Some 0) ret req_foo) st_error = [].
Proof.
  split; [eexists; split; reflexivity|].
  split; [reflexivity|]. split; reflexivity.
Qed.

(** The request of [req_foo] through a chain that attaches one error: one
    Error record, with the error's message and the fields of the request
    as the chain left it, and no Info record. *)
Example GinLogger_one_error :
  exists c' s1,
    chain_fails req_foo st_info = Ret c' s1 /\
    GinLogger (Some 0) chain_fails req_foo st_info =
    Ret c'
        (emit s1
           [recordOf (newLogger cfg_info zapcore.InfoLevel 0) zapcore.ErrorLevel 5
                     "boom" (httpFields c' "/foo" "x=1" 5)]).
Proof. eexists _, _. split; reflexivity. Qed.

(** C5 (amended): the response and the error the interceptor returns are
    the ones of the wrapped handler, whatever the logger.  With a logger
    that does not sample (as every logger built by [New]): when the handler
    returns an error, exactly one Error record is written if the logger's
    minimum severity admits the error level, with the full method name, the
    duration and the error; when it returns no error, exactly one Info
    record is written if the minimum severity admits the info level, with
    the full method name and the duration.  A record below the logger's
    minimum severity is not written. *)
Theorem GRPCLoggingInterceptor_spec (log : nat) (z : zap.Logger)
        (ctx : context.Context) (req resp : any) (err : option error)
        (info : grpc.UnaryServerInfo) (handler : grpc.UnaryHandler) (s s1 : State) :
  handler ctx req s = Ret (resp, err) s1 ->
  nth_error (heap s1) log = Some z ->
  (exists s2,
      GRPCLoggingInterceptor (Some log) ctx req info handler s = Ret (resp, err) s2) /\
  (zap.sampling z = None ->
   GRPCLoggingInterceptor (Some log) ctx req info handler s =
   Ret (resp, err)
     (emit s1
        match err with
        | Some e =>
          if zapcore.Enabled (zap.level z) zapcore.ErrorLevel
          then [recordOf z zapcore.ErrorLevel (clock s1) "gRPC request failed"
                  [zap.Any "method" (AString (grpc.FullMethod info));
                   zap.Any "duration" (ADuration (clock s1 - clock s));
                   zap.Any "error" (AError e)]]
          else []
        | None =>
          if zapcore.Enabled (zap.level z) zapcore.InfoLevel
          then [recordOf z zapcore.InfoLevel (clock s1) "gRPC request"
                  [zap.Any "method" (AString (grpc.FullMethod info));
                   zap.Any "duration" (ADuration (clock s1 - clock s))]]
          else []
        end)).
Proof.
  intros Hh Hz.
  unfold GRPCLoggingInterceptor.
  split; [|intros Hs];
    (destruct err as [e|];
     cbv beta iota zeta delta [bind time_Now time_Since Errorw Infow deref];
     rewrite Hh; cbv beta iota; rewrite Hz).
  - match goal with
    | |- context [SugaredLogger.Errorw z ?m ?kv s1] =>
      destruct (log_returns z zapcore.ErrorLevel m kv s1) as (s2 & E & _);
        [simpl; lia|]; unfold SugaredLogger.Errorw; rewrite E
    end.
    eexists. reflexivity.
  - match goal with
    | |- context [SugaredLogger.Infow z ?m ?kv s1] =>
      destruct (log_returns z zapcore.InfoLevel m kv s1) as (s2 & E & _);
        [simpl; lia|]; unfold SugaredLogger.Infow; rewrite E
    end.
    eexists. reflexivity.
  - unfold SugaredLogger.Errorw.
    rewrite (log_unsampled z zapcore.ErrorLevel _ _
               [zap.Any "method" (AString (grpc.FullMethod info));
                zap.Any "duration" (ADuration (clock s1 - clock s));
                zap.Any "error" (AError e)] s1 Hs)
      by (try reflexivity; simpl; lia).
    reflexivity.
  - unfold SugaredLogger.Infow.
    rewrite (log_unsampled z zapcore.InfoLevel _ _
               [zap.Any "method" (AString (grpc.FullMethod info));
                zap.Any "duration" (ADuration (clock s1 - clock s))] s1 Hs)
      by (try reflexivity; simpl; lia).
    reflexivity.
Qed.

(** A failing call with the info-level logger of [st_info]: the handler's
    answer, and one Error record. *)
Lemma GRPCLoggingInterceptor_spec_witness :
  handler_fails None (AInt 1) st_info =
    Ret (ANil, Some (errApp "boom")) (stateOf (handler_fails None (AInt 1) st_info)) /\
  nth_error (heap (stateOf (handler_fails None (AInt 1) st_info))) 0 =
    Some (newLogger cfg_info zapcore.InfoLevel 0) /\
  (exists s2,
      GRPCLoggingInterceptor (Some 0) None (AInt 1) info_svc handler_fails st_info =
      Ret (ANil, Some (errApp "boom")) s2) /\
  (zap.sampling (newLogger cfg_info zapcore.InfoLevel 0) = None ->
   GRPCLoggingInterceptor (Some 0) None (AInt 1) info_svc handler_fails st_info =
   Ret (ANil, Some (errApp "boom"))
     (emit (stateOf (handler_fails None (AInt 1) st_info))
        [recordOf (newLogger cfg_info zapcore.InfoLevel 0) zapcore.ErrorLevel 7
                  "gRPC request failed"
                  [zap.Any "method" (AString "/svc/Method");
                   zap.Any "duration" (ADuration 7);
                   zap.Any "error" (AError (errApp "boom"))]])).
Proof.
  split; [reflexivity|]. split; [reflexivity|].
  exact (GRPCLoggingInterceptor_spec 0 (newLogger cfg_info zapcore.InfoLevel 0)
           None (AInt 1) ANil (Some (errApp "boom")) info_svc handler_fails
           st_info (stateOf (handler_fails None (AInt 1) st_info)) eq_refl eq_refl).
Defined.

(** C5, as stated, fails: with the logger at address 0 of [st_error]
    (minimum severity error) a call that returns no error is answered
    unchanged, and no Info record is written. *)
Lemma GRPC_info_below_level :
  (exists z, nth_error (heap st_error) 0 = Some z /\
             zap.level z = zapcore.ErrorLevel) /\
  GRPCLoggingInterceptor (Some 0) None (AInt 1) info_svc handler_echo st_error =
    Ret (AInt 1, None) st_error /\
  emitted (GRPCLoggingInterceptor (Some 0) None (AInt 1) info_svc handler_echo) st_error = [].
Proof.
  split; [eexists; split; reflexivity|].
  split; reflexivity.
Qed.

(** * Further properties *)

(** ** New: results, errors, level names *)

(** X1: [New] never panics and returns exactly one of a logger and an
    error.  When it fails it allocates no logger and writes no record; when
    it succeeds it allocates one cell after the existing ones and writes no
    record. *)
Theorem New_total (cfg : Config) (s : State) :
  exists p e s',
    New cfg s = Ret (p, e) s' /\
    ((p = nil /\ e <> None /\ heap s' = heap s /\ written s' = written s) \/
     (p = Some (List.length (heap s)) /\ e = None /\
      exists z, heap s' = heap s ++ [z] /\ written s' = written s)).
Proof.
  pose proof (New_cases cfg s) as C.
  destruct (zapcore.UnmarshalText zapcore.InfoLevel (LogLevel cfg)) as [lvl [e|]].
  - eexists _, _, _. split; [exact C|]. left. repeat split. discriminate.
  - destruct (buildable cfg s).
    + eexists _, _, _. split; [exact C|]. right.
      split; [reflexivity|]. split; [reflexivity|].
      eexists. repeat split.
    + destruct C as [e [C _]].
      eexists _, _, _. split; [exact C|]. left. repeat split. discriminate.
Qed.

Lemma filter_snoc_stderr (s : State) (paths : list string) :
  filter (fun p => negb (zapfx.newSink s p)) (paths ++ ["stderr"]) =
  filter (fun p => negb (zapfx.newSink s p)) paths.
Proof.
  rewrite filter_app. simpl. apply app_nil_r.
Qed.

(** X2: an error of [New] is one of four: the parser's (the level text
    is not recognized); that no encoder is registered under the configured
    name (never that the name is missing, since the empty encoding becomes
    "json"); the error of the constructor of the encoder registered under
    that name; or the sinks' (listing exactly the configured paths that
    cannot be opened, never "stderr"). *)
Theorem New_errors (cfg : Config) (s s' : State) (p : ptr) (e : error) :
  New cfg s = Ret (p, Some e) s' ->
  e = errUnrecognizedLevel (LogLevel cfg) \/
  (e = errNoEncoderRegistered (Encoding cfg) /\ Encoding cfg <> "" /\
   encoders s (Encoding cfg) = Unregistered) \/
  (exists msg, e = errEncoderConstructor msg /\
               encoders s (Encoding cfg) = FailsWith msg) \/
  (e = errOpenSinks (filter (fun p => negb (zapfx.newSink s p)) (OutputPaths cfg)) /\
   ~ In "stderr" (filter (fun p => negb (zapfx.newSink s p)) (OutputPaths cfg)) /\
   filter (fun p => negb (zapfx.newSink s p)) (OutputPaths cfg) <> []).
Proof.
  unfold New.
  assert (HL : LogLevel (if Encoding cfg =? "" then set_Encoding cfg "json" else cfg)
               = LogLevel cfg) by (destruct (Encoding cfg =? ""); reflexivity).
  rewrite HL; clear HL.
  assert (HU : forall lvl e0,
             zapcore.UnmarshalText zapcore.InfoLevel (LogLevel cfg) = (lvl, Some e0) ->
             e0 = errUnrecognizedLevel (LogLevel cfg)).
  { intros lvl e0. rewrite UnmarshalText_ToLower.
    destruct (levelOf levelNames (zapcore.ToLower (LogLevel cfg))); [discriminate|].
    intros H. now injection H as _ <-. }
  destruct (zapcore.UnmarshalText zapcore.InfoLevel (LogLevel cfg)) as [lvl [e0|]] eqn:HP.
  - intros H. injection H as _ <- _. left. eapply HU. reflexivity.
  - assert (HE : Encoding (if Encoding cfg =? "" then set_Encoding cfg "json" else cfg)
                 = if Encoding cfg =? "" then "json" else Encoding cfg)
      by (destruct (Encoding cfg =? ""); reflexivity).
    assert (HD : Development (if Encoding cfg =? "" then set_Encoding cfg "json" else cfg)
                 = Development cfg) by (destruct (Encoding cfg =? ""); reflexivity).
    assert (HO : OutputPaths (if Encoding cfg =? "" then set_Encoding cfg "json" else cfg)
                 = OutputPaths cfg) by (destruct (Encoding cfg =? ""); reflexivity).
    rewrite HE, HD, HO; clear HE HD HO.
    unfold bind, zapfx.Build, zapfx.openSinks; simpl.
    destruct (zapfx.newEncoder (if Encoding cfg =? "" then "json" else Encoding cfg) s)
      as [e1|] eqn:Henc.
    + intros H. injection H as _ <- _. right.
      unfold zapfx.newEncoder in Henc.
      destruct (String.eqb_spec (Encoding cfg) "") as [Hemp|Hne].
      * simpl in Henc. discriminate.
      * destruct (String.eqb_spec (Encoding cfg) ""); [contradiction|].
        destruct (_ || _) in Henc; [discriminate|].
        destruct (encoders s (Encoding cfg)) as [| |msg] eqn:Hreg.
        -- injection Henc as <-. left. repeat split. exact Hne.
        -- discriminate.
        -- injection Henc as <-. right. left. exists msg. now split.
    + unfold zapfx.Open. rewrite filter_snoc_stderr.
      destruct (filter (fun p0 => negb (zapfx.newSink s p0)) (OutputPaths cfg))
        as [|f failed] eqn:Hf.
      * simpl. intros H. discriminate.
      * intros H. injection H as _ <- _. right. right. right.
        split; [reflexivity|]. split; [|discriminate].
        rewrite <- Hf. intros Hin. apply filter_In in Hin as [_ Hin].
        discriminate.
Qed.

(** A configuration with a log file, in a process that cannot open it. *)
Lemma New_errors_witness :
  New cfg_file st_readonly =
    Ret (nil, Some (errOpenSinks ["/var/log/app.log"])) st_readonly /\
  (errOpenSinks ["/var/log/app.log"] = errUnrecognizedLevel (LogLevel cfg_file) \/
   (errOpenSinks ["/var/log/app.log"] = errNoEncoderRegistered (Encoding cfg_file) /\
    Encoding cfg_file <> "" /\
    encoders st_readonly (Encoding cfg_file) = Unregistered) \/
   (exists msg, errOpenSinks ["/var/log/app.log"] = errEncoderConstructor msg /\
                encoders st_readonly (Encoding cfg_file) = FailsWith msg) \/
   (errOpenSinks ["/var/log/app.log"] =
      errOpenSinks (filter (fun p => negb (zapfx.newSink st_readonly p))
                           (OutputPaths cfg_file)) /\
    ~ In "stderr" (filter (fun p => negb (zapfx.newSink st_readonly p))
                          (OutputPaths cfg_file)) /\
    filter (fun p => negb (zapfx.newSink st_readonly p)) (OutputPaths cfg_file) <> [])).
Proof.
  split; [reflexivity|].
  apply (New_errors cfg_file st_readonly st_readonly nil). reflexivity.
Defined.

(** An encoder registered by the program whose constructor fails: [New]
    returns the constructor's error. *)
Example New_constructor_fails :
  New cfg_xml st_xml_fails =
    Ret (nil, Some (errEncoderConstructor "xml: bad configuration")) st_xml_fails.
Proof. reflexivity. Qed.

(** X3: the level name is read without regard to letter case: when [New]
    builds a logger from a configuration, it builds the same logger, in the
    same state, from the configuration with the level name in any other
    letter case, that is, with any text that has the same lower case
    (the letter U+0130 counts as an upper-case i). *)
Theorem New_level_case (cfg : Config) (text : string) (s s' : State) (l : nat)
        (e : option error) :
  New cfg s = Ret (Some l, e) s' ->
  zapcore.ToLower text = zapcore.ToLower (LogLevel cfg) ->
  New (set_LogLevel cfg text) s = Ret (Some l, e) s'.
Proof.
  intros H Hlow.
  apply New_success in H as (lvl & HP & HB & -> & -> & -> & _).
  pose proof (New_cases (set_LogLevel cfg text) s) as C.
  change (LogLevel (set_LogLevel cfg text)) with text in C.
  rewrite UnmarshalText_ToLower in *.
  rewrite Hlow in C.
  destruct (levelOf levelNames (zapcore.ToLower (LogLevel cfg))) as [lvl'|];
    [|discriminate].
  injection HP as ->.
  change (buildable (set_LogLevel cfg text) s) with (buildable cfg s) in C.
  rewrite HB in C. exact C.
Qed.

Lemma New_level_case_witness :
  New cfg_info st0 = Ret (Some 0, None) st_info /\
  zapcore.ToLower text_dotted_INFO = zapcore.ToLower (LogLevel cfg_info) /\
  New (set_LogLevel cfg_info text_dotted_INFO) st0 = Ret (Some 0, None) st_info.
Proof.
  split; [reflexivity|]. split; [reflexivity|].
  apply (New_level_case cfg_info text_dotted_INFO st0 st_info 0 None); reflexivity.
Defined.

(** ** Logging through a logger built by New *)

(** X4: a logger built by [New] never samples: a call below the dpanic
    level with well-formed key/value arguments writes exactly one record,
    with the fields in the order of the arguments, when the level of the
    call is at least the configured one, and nothing otherwise. *)
Theorem New_logs_pairs (cfg : Config) (s s' : State) (l : nat) (e : option error) :
  New cfg s = Ret (Some l, e) s' ->
  exists z,
    nth_error (heap s') l = Some z /\
    zap.sampling z = None /\
    forall st lvl msg ps,
      nth_error (heap st) l = Some z ->
      (zapcore.Level_toZ lvl < zapcore.Level_toZ zapcore.DPanicLevel)%Z ->
      log (Some l) lvl msg (kvs ps) st =
      Ret tt (emit st (if zapcore.Enabled (zap.level z) lvl
                       then [recordOf z lvl (clock st) msg (fieldsOf ps)]
                       else [])).
Proof.
  intros H. apply New_success in H as (lvl0 & _ & _ & _ & _ & _ & Hz).
  eexists. split; [exact Hz|]. split; [reflexivity|].
  intros st lvl msg ps Hst Hl.
  rewrite (log_deref _ _ lvl msg (kvs ps) st Hst).
  apply log_unsampled; [reflexivity | exact Hl |].
  intros s0. apply sweetenFields_pairs.
Qed.

Lemma New_logs_pairs_witness :
  New cfg_info st0 = Ret (Some 0, None) st_info /\
  exists z,
    nth_error (heap st_info) 0 = Some z /\
    zap.sampling z = None /\
    forall st lvl msg ps,
      nth_error (heap st) 0 = Some z ->
      (zapcore.Level_toZ lvl < zapcore.Level_toZ zapcore.DPanicLevel)%Z ->
      log (Some 0) lvl msg (kvs ps) st =
      Ret tt (emit st (if zapcore.Enabled (zap.level z) lvl
                       then [recordOf z lvl (clock st) msg (fieldsOf ps)]
                       else [])).
Proof.
  split; [reflexivity|].
  apply (New_logs_pairs cfg_info st0 st_info 0 None). reflexivity.
Defined.

(** ** Every record a logger writes is its own *)

Section Invariant.

Variable z : zap.Logger.
Variable P : zapcore.LogRecord -> Prop.

(** [P] holds of any record with the name, the standing fields and the
    sinks of [z]. *)
Hypothesis P_record :
  forall e fs,
    zapcore.ELoggerName e = zap.name z ->
    P {| zapcore.Ent := e; zapcore.Fields := zap.context z ++ fs;
         zapcore.Sinks := zap.outputPaths z |}.

Lemma adds_refl (s : State) : adds P s s.
Proof.
  repeat split. exists []. split; [now rewrite app_nil_r | constructor].
Qed.

Lemma adds_trans (s1 s2 s3 : State) : adds P s1 s2 -> adds P s2 s3 -> adds P s1 s3.
Proof.
  intros (Hh1 & Hc1 & n1 & Hw1 & Hf1) (Hh2 & Hc2 & n2 & Hw2 & Hf2).
  split; [congruence|]. split; [congruence|].
  exists (n1 ++ n2). split.
  - rewrite Hw2, Hw1. now rewrite app_assoc.
  - apply Forall_app. now split.
Qed.

Lemma adds_counters (s : State) (cs : Counters) : adds P s (set_counters s cs).
Proof.
  repeat split. exists []. split; [simpl; now rewrite app_nil_r | constructor].
Qed.

Lemma adds_write (s : State) (e : zapcore.Entry) (fields : list zapcore.Field) :
  zapcore.ELoggerName e = zap.name z ->
  adds P s (set_written s (written s ++
    [{| zapcore.Ent := e; zapcore.Fields := zap.context z ++ fields;
        zapcore.Sinks := zap.outputPaths z |}])).
Proof.
  intros He. repeat split. eexists. split; [reflexivity|].
  constructor; [|constructor]. now apply P_record.
Qed.

Lemma check_adds (lvl : zapcore.Level) (msg : string) (s : State) :
  exists ce s',
    zapfx.check z lvl msg s = Ret ce s' /\ adds P s s' /\
    forall c, ce = Some c -> zapcore.ELoggerName (zapcore.ceEnt c) = zap.name z.
Proof.
  unfold zapfx.check.
  destruct (_ && _);
    [eexists _, _; split; [reflexivity | split; [apply adds_refl | discriminate]]|].
  destruct (zapcore.Enabled (zap.level z) lvl).
  - destruct (zap.sampling z) as [sc|].
    + destruct (zapfx.sample sc _ _ _ _ _) as [keep cs].
      destruct keep; destruct lvl; try destruct (zap.development z);
        eexists _, _;
        (split; [reflexivity | split; [apply adds_counters|]]);
        intros c Hc; inversion Hc; reflexivity.
    + destruct lvl; try destruct (zap.development z);
        eexists _, _;
        (split; [reflexivity | split; [apply adds_refl|]]);
        intros c Hc; inversion Hc; reflexivity.
  - destruct lvl; try destruct (zap.development z);
      eexists _, _;
      (split; [reflexivity | split; [apply adds_refl|]]);
      intros c Hc; inversion Hc; reflexivity.
Qed.

Lemma Write_adds (ce : zapcore.CheckedEntry) (fields : list zapcore.Field) (s : State) :
  zapcore.ELoggerName (zapcore.ceEnt ce) = zap.name z ->
  adds P s (stateOf (zapfx.Write z ce fields s)).
Proof.
  intros He. unfold zapfx.Write.
  destruct (zapcore.ceCores ce), (zapcore.ceShould ce); simpl;
    first [apply adds_write; exact He | apply adds_refl].
Qed.

Lemma Error_adds (msg : string) (fields : list zapcore.Field) (s : State) :
  exists s', zapfx.Error z msg fields s = Ret tt s' /\ adds P s s'.
Proof.
  destruct (Error_returns z msg fields s) as (s' & E & _).
  exists s'. split; [exact E|].
  unfold zapfx.Error, bind in E.
  destruct (check_adds zapcore.ErrorLevel msg s) as (ce & s1 & Hc & G & Hn).
  rewrite Hc in E. destruct ce as [ce|].
  - pose proof (Write_adds ce fields s1 (Hn ce eq_refl)) as G2.
    rewrite E in G2. eapply adds_trans; eassumption.
  - injection E as <-. exact G.
Qed.

Lemma sweetenLoop_adds (n : nat) :
  forall (args : list any), (List.length args <= n)%nat ->
  forall i seenError fields invalid s,
  exists r s',
    SugaredLogger.sweetenLoop z i args seenError fields invalid s = Ret r s' /\
    adds P s s'.
Proof.
  induction n as [|n IH]; intros args Hlen i seenError fields invalid s.
  - destruct args; [|simpl in Hlen; lia].
    eexists _, _. split; [reflexivity | apply adds_refl].
  - assert (Hpair : forall key val rest, args = key :: val :: rest ->
              forall i' f' inv', exists r s',
                SugaredLogger.sweetenLoop z i' rest seenError f' inv' s = Ret r s' /\
                adds P s s').
    { intros key val rest -> i' f' inv'. apply IH. simpl in Hlen. lia. }
    assert (Hodd : forall x, exists r s',
              bind (zapfx.Error z SugaredLogger._oddNumberErrMsg [zap.Any "ignored" x])
                   (fun _ => ret (fields, invalid)) s = Ret r s' /\ adds P s s').
    { intros x. unfold bind.
      destruct (Error_adds SugaredLogger._oddNumberErrMsg [zap.Any "ignored" x] s)
        as (s1 & -> & G).
      eexists _, _. split; [reflexivity | exact G]. }
    destruct args as [|a rest].
    + eexists _, _. split; [reflexivity | apply adds_refl].
    + assert (Hrest : (List.length rest <= n)%nat) by (simpl in Hlen; lia).
      destruct a;
        try (destruct rest as [|val rest']; simpl;
             [apply Hodd | eapply Hpair; reflexivity]).
      * simpl. destruct seenError.
        -- unfold bind.
           destruct (Error_adds SugaredLogger._multipleErrMsg [zap.Error e] s)
             as (s1 & -> & G).
           destruct (IH rest Hrest (i + 1) true fields invalid s1) as (r & s2 & -> & G2).
           eexists _, _. split; [reflexivity | eapply adds_trans; eassumption].
        -- apply IH. exact Hrest.
      * simpl. apply IH. exact Hrest.
Qed.

Lemma sweetenFields_adds (args : list any) (s : State) :
  exists fields s',
    SugaredLogger.sweetenFields z args s = Ret fields s' /\ adds P s s'.
Proof.
  unfold SugaredLogger.sweetenFields.
  destruct args as [|a rest].
  - eexists _, _. split; [reflexivity | apply adds_refl].
  - unfold bind.
    destruct (sweetenLoop_adds _ (a :: rest) (Nat.le_refl _) 0 false [] [] s)
      as ([fields invalid] & s1 & -> & G).
    simpl. destruct invalid as [|p invalid].
    + eexists _, _. split; [reflexivity | exact G].
    + destruct (Error_adds SugaredLogger._nonStringKeyErrMsg
                  [zap.Array "invalid" (p :: invalid)] s1) as (s2 & -> & G2).
      eexists _, _. split; [reflexivity | eapply adds_trans; eassumption].
Qed.

Lemma log_adds (lvl : zapcore.Level) (msg : string) (kv : list any) (s : State) :
  adds P s (stateOf (SugaredLogger.log z lvl msg kv s)).
Proof.
  unfold SugaredLogger.log.
  destruct (_ && _); [apply adds_refl|].
  unfold bind.
  destruct (check_adds lvl msg s) as (ce & s1 & -> & G1 & Hn).
  destruct ce as [ce|]; [|exact G1].
  destruct (sweetenFields_adds kv s1) as (fields & s2 & -> & G2).
  eapply adds_trans; [exact G1|]. eapply adds_trans; [exact G2|].
  apply Write_adds. now apply Hn.
Qed.

End Invariant.

(** Whatever the call, a record written through a pointer is written by
    the object it points to. *)
Lemma log_emitted_written_by (l : nat) (z : zap.Logger) (lvl : zapcore.Level)
      (msg : string) (kv : list any) (st : State) (r : zapcore.LogRecord) :
  nth_error (heap st) l = Some z ->
  In r (emitted (log (Some l) lvl msg kv) st) ->
  written_by z r.
Proof.
  intros Hz Hin.
  assert (G : adds (written_by z) st (stateOf (log (Some l) lvl msg kv st))).
  { rewrite (log_deref l z) by exact Hz. apply log_adds.
    intros e fs He. split; [exact He|]. split; [reflexivity|]. now exists fs. }
  destruct G as (_ & _ & new & Hw & Hf).
  unfold emitted in Hin. rewrite Hw, skipn_app_length in Hin.
  rewrite Forall_forall in Hf. now apply Hf.
Qed.

(** X5: every record written through a logger built by [New], at any
    level, with any arguments and however the call ends, goes to the
    configured output paths followed by "stderr", and has no logger name. *)
Theorem New_records_sinks (cfg : Config) (s s' : State) (l : nat) (e : option error) :
  New cfg s = Ret (Some l, e) s' ->
  exists z,
    nth_error (heap s') l = Some z /\
    forall st lvl msg kv r,
      nth_error (heap st) l = Some z ->
      In r (emitted (log (Some l) lvl msg kv) st) ->
      zapcore.Sinks r = OutputPaths cfg ++ ["stderr"] /\
      zapcore.ELoggerName (zapcore.Ent r) = "".
Proof.
  intros H. apply New_success in H as (lvl0 & _ & _ & _ & _ & _ & Hz).
  eexists. split; [exact Hz|].
  intros st lvl msg kv r Hst Hin.
  destruct (log_emitted_written_by _ _ _ _ _ _ _ Hst Hin) as (Hn & Hs & _).
  split; [exact Hs | exact Hn].
Qed.

Lemma New_records_sinks_witness :
  New cfg_info st0 = Ret (Some 0, None) st_info /\
  exists z,
    nth_error (heap st_info) 0 = Some z /\
    forall st lvl msg kv r,
      nth_error (heap st) 0 = Some z ->
      In r (emitted (log (Some 0) lvl msg kv) st) ->
      zapcore.Sinks r = OutputPaths cfg_info ++ ["stderr"] /\
      zapcore.ELoggerName (zapcore.Ent r) = "".
Proof.
  split; [reflexivity|].
  apply (New_records_sinks cfg_info st0 st_info 0 None). reflexivity.
Defined.

(** ** NewDefault *)

(** X6: in every state, the logger of [NewDefault] is the production
    preset as it is: info level, JSON, "stderr" as its only sink, epoch
    timestamps and lower-case level names (the overrides of [New] are not
    applied), with sampling on; [NewDefault] writes nothing, and a debug
    call through its logger writes nothing either. *)
Theorem NewDefault_logger (s : State) :
  exists l s' z,
    NewDefault s = Ret (Some l) s' /\
    nth_error (heap s') l = Some z /\
    written s' = written s /\
    zap.level z = zapcore.InfoLevel /\
    zap.encoding z = "json" /\
    zap.outputPaths z = ["stderr"] /\
    zap.encoderConfig z = zap.NewProductionEncoderConfig /\
    zap.sampling z = Some {| zap.Initial := 100; zap.Thereafter := 100 |} /\
    forall st msg kv,
      nth_error (heap st) l = Some z ->
      log (Some l) zapcore.DebugLevel msg kv st = Ret tt st.
Proof.
  eexists _, _, _.
  split; [reflexivity|]. split; [simpl; apply nth_error_snoc|].
  repeat (split; [reflexivity|]).
  intros st msg kv Hst.
  rewrite (log_deref _ _ zapcore.DebugLevel msg kv st Hst). reflexivity.
Qed.

(** ** With, Named and WithContext *)

Lemma zap_With_keeps (z : zap.Logger) (fields : list zapcore.Field) :
  zap.level (zap.With z fields) = zap.level z /\
  zap.outputPaths (zap.With z fields) = zap.outputPaths z /\
  zap.name (zap.With z fields) = zap.name z /\
  zap.sampling (zap.With z fields) = zap.sampling z /\
  zap.core (zap.With z fields) = zap.core z /\
  zap.context (zap.With z fields) = zap.context z ++ fields.
Proof.
  destruct fields; simpl; repeat split. now rewrite app_nil_r.
Qed.

(** [With] with any arguments: the arguments are sweetened on the
    receiver, and the new cell holds the receiver's object with the fields
    that came out. *)
Lemma With_object (s : State) (l : nat) (z : zap.Logger) (args : list any) :
  nth_error (heap s) l = Some z ->
  exists fields s1,
    With (Some l) args s =
      Ret (Some (List.length (heap s)))
          (set_heap s1 (heap s ++ [zap.With z fields])) /\
    adds (written_by z) s s1.
Proof.
  intros Hz. unfold With, bind, deref. rewrite Hz.
  unfold SugaredLogger.With, bind.
  destruct (sweetenFields_adds z (written_by z)) with (args := args) (s := s)
    as (fields & s1 & -> & G).
  { intros e0 fs He. split; [exact He|]. split; [reflexivity|]. now exists fs. }
  exists fields, s1. split; [|exact G].
  destruct G as (Hh & _). unfold ret, alloc. now rewrite Hh.
Qed.

(** X7: [With] on a valid receiver never fails, whatever the arguments
    (a key without a value, a key that is not a string): it returns a fresh
    instance with the receiver's level, sinks, name and sampler, whose
    standing fields extend the receiver's; the receiver's cell and all other
    cells are unchanged, and whatever is written meanwhile (the reports on
    rejected arguments) is written by the receiver. *)
Theorem With_total (s : State) (l : nat) (z : zap.Logger) (args : list any) :
  nth_error (heap s) l = Some z ->
  exists s' z',
    With (Some l) args s = Ret (Some (List.length (heap s))) s' /\
    heap s' = heap s ++ [z'] /\
    nth_error (heap s') l = Some z /\
    zap.level z' = zap.level z /\
    zap.outputPaths z' = zap.outputPaths z /\
    zap.name z' = zap.name z /\
    zap.sampling z' = zap.sampling z /\
    zap.core z' = zap.core z /\
    (exists fs, zap.context z' = zap.context z ++ fs) /\
    clock s' = clock s /\
    exists new, written s' = written s ++ new /\ Forall (written_by z) new.
Proof.
  intros Hz.
  destruct (With_object s l z args Hz) as (fields & s1 & E & _ & Hc & new & Hw & Hf).
  destruct (zap_With_keeps z fields) as (K1 & K2 & K3 & K4 & K5 & K6).
  eexists _, _. split; [exact E|].
  cbn [heap clock written set_heap].
  split; [reflexivity|].
  split; [rewrite nth_error_app1 by (apply nth_error_Some; congruence); exact Hz|].
  repeat (split; [assumption|]).
  split; [eexists; exact K6|].
  split; [exact Hc|].
  exists new. now split.
Qed.

Lemma With_total_witness :
  nth_error (heap st_info) 0 = Some (newLogger cfg_info zapcore.InfoLevel 0) /\
  exists s' z',
    With (Some 0) [AString "dangling"] st_info =
      Ret (Some (List.length (heap st_info))) s' /\
    heap s' = heap st_info ++ [z'] /\
    nth_error (heap s') 0 = Some (newLogger cfg_info zapcore.InfoLevel 0) /\
    zap.level z' = zap.level (newLogger cfg_info zapcore.InfoLevel 0) /\
    zap.outputPaths z' = zap.outputPaths (newLogger cfg_info zapcore.InfoLevel 0) /\
    zap.name z' = zap.name (newLogger cfg_info zapcore.InfoLevel 0) /\
    zap.sampling z' = zap.sampling (newLogger cfg_info zapcore.InfoLevel 0) /\
    zap.core z' = zap.core (newLogger cfg_info zapcore.InfoLevel 0) /\
    (exists fs, zap.context z' =
                zap.context (newLogger cfg_info zapcore.InfoLevel 0) ++ fs) /\
    clock s' = clock st_info /\
    exists new, written s' = written st_info ++ new /\
                Forall (written_by (newLogger cfg_info zapcore.InfoLevel 0)) new.
Proof.
  split; [reflexivity|].
  apply (With_total st_info 0 (newLogger cfg_info zapcore.InfoLevel 0)
                    [AString "dangling"]).
  reflexivity.
Defined.

Lemma kvs_app (ps qs : list (string * any)) : kvs (ps ++ qs) = kvs ps ++ kvs qs.
Proof. unfold kvs. apply flat_map_app. Qed.

Lemma fieldsOf_app (ps qs : list (string * any)) :
  fieldsOf (ps ++ qs) = fieldsOf ps ++ fieldsOf qs.
Proof. unfold fieldsOf. apply map_app. Qed.

Lemma zap_With_With (z : zap.Logger) (f1 f2 : list zapcore.Field) :
  zap.With (zap.With z f1) f2 = zap.With z (f1 ++ f2).
Proof.
  destruct f1 as [|a f1]; [reflexivity|].
  destruct f2 as [|b f2].
  - rewrite app_nil_r. reflexivity.
  - simpl. now rewrite <- app_assoc.
Qed.

(** [With] on well-formed arguments: nothing is written, and the new cell
    holds the receiver's object with the fields added. *)
Lemma With_pairs (l : nat) (z : zap.Logger) (ps : list (string * any)) (s : State) :
  nth_error (heap s) l = Some z ->
  With (Some l) (kvs ps) s =
  Ret (Some (List.length (heap s)))
      (set_heap s (heap s ++ [zap.With z (fieldsOf ps)])).
Proof.
  intros Hz. unfold With, bind, deref. rewrite Hz.
  unfold SugaredLogger.With, bind. rewrite sweetenFields_pairs. reflexivity.
Qed.

(** X8: with well-formed key/value arguments, deriving in two steps gives
    the same logger object as deriving once with all the arguments: the
    standing fields are the receiver's, then the first arguments', then the
    second ones', and neither derivation writes anything. *)
Theorem With_compose (s : State) (l : nat) (z : zap.Logger)
        (ps qs : list (string * any)) :
  nth_error (heap s) l = Some z ->
  exists l1 s1 l2 s2 l3 s3 z',
    With (Some l) (kvs ps) s = Ret (Some l1) s1 /\
    With (Some l1) (kvs qs) s1 = Ret (Some l2) s2 /\
    With (Some l) (kvs (ps ++ qs)) s = Ret (Some l3) s3 /\
    nth_error (heap s2) l2 = Some z' /\
    nth_error (heap s3) l3 = Some z' /\
    zap.context z' = zap.context z ++ fieldsOf ps ++ fieldsOf qs /\
    written s2 = written s /\ written s3 = written s.
Proof.
  intros Hz.
  pose (s1 := set_heap s (heap s ++ [zap.With z (fieldsOf ps)])).
  assert (Hz1 : nth_error (heap s1) (List.length (heap s)) =
                Some (zap.With z (fieldsOf ps)))
    by (simpl; apply nth_error_snoc).
  eexists _, _, _, _, _, _, (zap.With z (fieldsOf (ps ++ qs))).
  split; [apply With_pairs; exact Hz|].
  split; [apply With_pairs; exact Hz1|].
  split; [apply With_pairs; exact Hz|].
  split; [simpl; rewrite zap_With_With, <- fieldsOf_app; apply nth_error_snoc|].
  split; [simpl; apply nth_error_snoc|].
  split; [|split; reflexivity].
  rewrite fieldsOf_app. apply zap_With_keeps.
Qed.

Lemma With_compose_witness :
  nth_error (heap st_info) 0 = Some (newLogger cfg_info zapcore.InfoLevel 0) /\
  exists l1 s1 l2 s2 l3 s3 z',
    With (Some 0) (kvs [("a", AInt 1)]) st_info = Ret (Some l1) s1 /\
    With (Some l1) (kvs [("b", ABool true)]) s1 = Ret (Some l2) s2 /\
    With (Some 0) (kvs ([("a", AInt 1)] ++ [("b", ABool true)])) st_info =
      Ret (Some l3) s3 /\
    nth_error (heap s2) l2 = Some z' /\
    nth_error (heap s3) l3 = Some z' /\
    zap.context z' =
      zap.context (newLogger cfg_info zapcore.InfoLevel 0) ++
      fieldsOf [("a", AInt 1)] ++ fieldsOf [("b", ABool true)] /\
    written s2 = written st_info /\ written s3 = written st_info.
Proof.
  split; [reflexivity|].
  apply (With_compose st_info 0 (newLogger cfg_info zapcore.InfoLevel 0)).
  reflexivity.
Defined.

Lemma zap_Named_With (z : zap.Logger) (n : string) (fields : list zapcore.Field) :
  zap.Named (zap.With z fields) n = zap.With (zap.Named z n) fields.
Proof.
  unfold zap.Named. destruct fields; destruct (n =? ""); reflexivity.
Qed.

(** X9: [Named] returns a fresh instance and leaves the receiver as it
    was.  The name of the new instance is the receiver's name, a dot and
    the segment (the segment alone for an unnamed receiver, the receiver's
    name for the empty segment); level, sinks and standing fields are the
    receiver's.  Every record written through the new instance has that
    name and starts with the receiver's standing fields. *)
Theorem Named_spec (s : State) (l : nat) (z : zap.Logger) (n : string) :
  nth_error (heap s) l = Some z ->
  exists l1 s1 z1,
    Named (Some l) n s = Ret (Some l1) s1 /\
    l1 <> l /\
    nth_error (heap s1) l1 = Some z1 /\
    nth_error (heap s1) l = Some z /\
    written s1 = written s /\
    zap.name z1 =
      (if n =? "" then zap.name z
       else if zap.name z =? "" then n
            else (zap.name z ++ "." ++ n)%string) /\
    zap.level z1 = zap.level z /\
    zap.outputPaths z1 = zap.outputPaths z /\
    zap.context z1 = zap.context z /\
    forall st lvl msg kv r,
      nth_error (heap st) l1 = Some z1 ->
      In r (emitted (log (Some l1) lvl msg kv) st) ->
      zapcore.ELoggerName (zapcore.Ent r) = zap.name z1 /\
      exists fs, zapcore.Fields r = zap.context z ++ fs.
Proof.
  intros Hz.
  assert (Hlt : (l < List.length (heap s))%nat)
    by (apply nth_error_Some; congruence).
  exists (List.length (heap s)), (set_heap s (heap s ++ [zap.Named z n])),
    (zap.Named z n).
  split; [unfold Named, bind, deref; rewrite Hz; reflexivity|].
  split; [lia|].
  split; [simpl; apply nth_error_snoc|].
  split; [simpl; rewrite nth_error_app1 by exact Hlt; exact Hz|].
  split; [reflexivity|].
  assert (Hk : zap.level (zap.Named z n) = zap.level z /\
               zap.outputPaths (zap.Named z n) = zap.outputPaths z /\
               zap.context (zap.Named z n) = zap.context z)
    by (unfold zap.Named; destruct (n =? ""); repeat split).
  destruct Hk as (K1 & K2 & K3).
  split; [unfold zap.Named; destruct (n =? ""); reflexivity|].
  repeat (split; [assumption|]).
  intros st lvl msg kv r Hst Hin.
  destruct (log_emitted_written_by _ _ _ _ _ _ _ Hst Hin) as (Hn & _ & Hf).
  split; [exact Hn|]. now rewrite <- K3.
Qed.

Lemma Named_spec_witness :
  nth_error (heap st_info) 0 = Some (newLogger cfg_info zapcore.InfoLevel 0) /\
  exists l1 s1 z1,
    Named (Some 0) "http" st_info = Ret (Some l1) s1 /\
    l1 <> 0 /\
    nth_error (heap s1) l1 = Some z1 /\
    nth_error (heap s1) 0 = Some (newLogger cfg_info zapcore.InfoLevel 0) /\
    written s1 = written st_info /\
    zap.name z1 =
      (if "http" =? "" then zap.name (newLogger cfg_info zapcore.InfoLevel 0)
       else if zap.name (newLogger cfg_info zapcore.InfoLevel 0) =? "" then "http"
            else (zap.name (newLogger cfg_info zapcore.InfoLevel 0) ++ "." ++ "http")%string) /\
    zap.level z1 = zap.level (newLogger cfg_info zapcore.InfoLevel 0) /\
    zap.outputPaths z1 = zap.outputPaths (newLogger cfg_info zapcore.InfoLevel 0) /\
    zap.context z1 = zap.context (newLogger cfg_info zapcore.InfoLevel 0) /\
    forall st lvl msg kv r,
      nth_error (heap st) l1 = Some z1 ->
      In r (emitted (log (Some l1) lvl msg kv) st) ->
      zapcore.ELoggerName (zapcore.Ent r) = zap.name z1 /\
      exists fs, zapcore.Fields r =
                 zap.context (newLogger cfg_info zapcore.InfoLevel 0) ++ fs.
Proof.
  split; [reflexivity|].
  apply (Named_spec st_info 0 (newLogger cfg_info zapcore.InfoLevel 0) "http").
  reflexivity.
Defined.

(** X10: naming and attaching fields commute: [With] followed by [Named]
    gives the same logger object as [Named] followed by [With], for
    well-formed key/value arguments. *)
Theorem Named_With_commute (s : State) (l : nat) (z : zap.Logger) (n : string)
        (ps : list (string * any)) :
  nth_error (heap s) l = Some z ->
  exists la sa l1 s1 lb sb l2 s2 z',
    With (Some l) (kvs ps) s = Ret (Some la) sa /\
    Named (Some la) n sa = Ret (Some l1) s1 /\
    Named (Some l) n s = Ret (Some lb) sb /\
    With (Some lb) (kvs ps) sb = Ret (Some l2) s2 /\
    nth_error (heap s1) l1 = Some z' /\
    nth_error (heap s2) l2 = Some z'.
Proof.
  intros Hz.
  pose (sa := set_heap s (heap s ++ [zap.With z (fieldsOf ps)])).
  pose (sb := set_heap s (heap s ++ [zap.Named z n])).
  assert (Hza : nth_error (heap sa) (List.length (heap s)) =
                Some (zap.With z (fieldsOf ps))) by (simpl; apply nth_error_snoc).
  assert (Hzb : nth_error (heap sb) (List.length (heap s)) = Some (zap.Named z n))
    by (simpl; apply nth_error_snoc).
  exists (List.length (heap s)), sa, (List.length (heap sa)),
    (set_heap sa (heap sa ++ [zap.Named (zap.With z (fieldsOf ps)) n])),
    (List.length (heap s)), sb, (List.length (heap sb)),
    (set_heap sb (heap sb ++ [zap.With (zap.Named z n) (fieldsOf ps)])),
    (zap.Named (zap.With z (fieldsOf ps)) n).
  split; [apply With_pairs; exact Hz|].
  split; [unfold Named, bind, deref; rewrite Hza; reflexivity|].
  split; [unfold Named, bind, deref; rewrite Hz; reflexivity|].
  split; [apply With_pairs; exact Hzb|].
  split; [simpl; apply nth_error_snoc|].
  rewrite zap_Named_With. simpl. apply nth_error_snoc.
Qed.

Lemma Named_With_commute_witness :
  nth_error (heap st_info) 0 = Some (newLogger cfg_info zapcore.InfoLevel 0) /\
  exists la sa l1 s1 lb sb l2 s2 z',
    With (Some 0) (kvs [("a", AInt 1)]) st_info = Ret (Some la) sa /\
    Named (Some la) "http" sa = Ret (Some l1) s1 /\
    Named (Some 0) "http" st_info = Ret (Some lb) sb /\
    With (Some lb) (kvs [("a", AInt 1)]) sb = Ret (Some l2) s2 /\
    nth_error (heap s1) l1 = Some z' /\
    nth_error (heap s2) l2 = Some z'.
Proof.
  split; [reflexivity|].
  apply (Named_With_commute st_info 0 (newLogger cfg_info zapcore.InfoLevel 0)).
  reflexivity.
Defined.

(** X11: [WithContext] on a nil receiver: with a nil context, or a context
    without a string request id, it returns nil; with a string request id
    it panics, dereferencing the receiver. *)
Theorem WithContext_nil_receiver (ctx : context.Context) (s : State) :
  WithContext nil ctx s =
  match ctx with
  | None => Ret nil s
  | Some c =>
    match context.Value c (AString "request_id") with
    | AString _ => Panic s
    | _ => Ret nil s
    end
  end.
Proof.
  destruct ctx as [c|]; [|reflexivity].
  unfold WithContext.
  destruct (context.Value c (AString "request_id")); reflexivity.
Qed.

Lemma error_eqb_eq (a b : error) : error_eqb a b = true -> a = b.
Proof.
  destruct a, b; simpl; try discriminate; try reflexivity.
  - intros H. apply String.eqb_eq in H. now subst.
  - intros H. apply String.eqb_eq in H. now subst.
  - intros H. apply String.eqb_eq in H. now subst.
  - destruct (list_eq_dec string_dec failed failed0); [now subst | discriminate].
  - intros H. apply String.eqb_eq in H. now subst.
Qed.

(** [any_eqb] is equality. *)
Lemma any_eqb_eq (a : any) : forall b, any_eqb a b = true -> a = b.
Proof.
  induction a; intros b'; destruct b'; simpl; try discriminate; intros H.
  - reflexivity.
  - apply String.eqb_eq in H. now subst.
  - apply Z.eqb_eq in H. now subst.
  - apply Bool.eqb_prop in H. now subst.
  - apply Z.eqb_eq in H. now subst.
  - apply error_eqb_eq in H. now subst.
  - apply andb_true_iff in H as [Hk Hv].
    apply String.eqb_eq in Hk. apply IHa in Hv. now subst.
  - apply andb_true_iff in H as [Hk Hv].
    apply String.eqb_eq in Hk. apply IHa in Hv. now subst.
Qed.

(** X12: when no pair of the context has the plain string "request_id" as
    its key (the key is absent, or is a value of another type, such as a
    defined key type over the same text), [WithContext] returns the
    receiver, whatever the receiver, and the state is unchanged. *)
Theorem WithContext_missing_key (lp : ptr) (ctx : list (any * any)) (s : State) :
  Forall (fun kv => fst kv <> AString "request_id") ctx ->
  WithContext lp (Some ctx) s = Ret lp s.
Proof.
  intros Hall.
  assert (Hv : context.Value ctx (AString "request_id") = ANil).
  { induction Hall as [|[k v] ctx Hk _ IH]; [reflexivity|].
    simpl. destruct (any_eqb k (AString "request_id")) eqn:E; [|exact IH].
    apply any_eqb_eq in E. simpl in Hk. contradiction. }
  unfold WithContext. now rewrite Hv.
Qed.

Lemma WithContext_missing_key_witness :
  Forall (fun kv => fst kv <> AString "request_id") ctx_typed_key /\
  WithContext (Some 0) (Some ctx_typed_key) st_info = Ret (Some 0) st_info.
Proof.
  assert (H : Forall (fun kv : any * any => fst kv <> AString "request_id")
                     ctx_typed_key)
    by (repeat constructor; discriminate).
  split; [exact H|].
  exact (WithContext_missing_key (Some 0) ctx_typed_key st_info H).
Defined.

(** ** Sync *)

Lemma syncAll_nil (sync : string -> option error) (paths : list string) :
  syncAll sync paths = [] <-> forall p, In p paths -> sync p = None.
Proof.
  unfold syncAll. induction paths as [|a paths IH]; simpl.
  - split; [intros _ p [] | reflexivity].
  - destruct (sync a) as [e|] eqn:Ha; simpl.
    + split; [discriminate|]. intros H. specialize (H a (or_introl eq_refl)). congruence.
    + rewrite IH. split.
      * intros H p [<-|Hp]; [exact Ha | now apply H].
      * intros H p Hp. apply H. now right.
Qed.

(** X13: [Sync] on a logger built by [New] syncs the configured output
    paths and then "stderr", leaves the state as it is, and returns no
    error exactly when "stderr" and every configured path sync; so it
    fails whenever syncing "stderr" fails, whatever was configured. *)
Theorem New_Sync (sync : string -> option error) (cfg : Config) (s s' : State)
        (l : nat) (e : option error) :
  New cfg s = Ret (Some l, e) s' ->
  Sync sync (Some l) s' = Ret (syncAll sync (OutputPaths cfg ++ ["stderr"])) s' /\
  (syncAll sync (OutputPaths cfg ++ ["stderr"]) = [] <->
   sync "stderr" = None /\ forall p, In p (OutputPaths cfg) -> sync p = None).
Proof.
  intros H. apply New_success in H as (lvl & _ & _ & _ & _ & _ & Hz).
  split.
  - unfold Sync, bind, deref. rewrite Hz. reflexivity.
  - rewrite syncAll_nil. split.
    + intros Hall. split.
      * apply Hall. apply in_or_app. right. now left.
      * intros p Hp. apply Hall. apply in_or_app. now left.
    + intros [Hs Hall] p Hp. apply in_app_or in Hp as [Hp|[<-|[]]].
      * now apply Hall.
      * exact Hs.
Qed.

Lemma New_Sync_witness :
  New cfg_info st0 = Ret (Some 0, None) st_info /\
  Sync sync_stderr_fails (Some 0) st_info =
    Ret (syncAll sync_stderr_fails (OutputPaths cfg_info ++ ["stderr"])) st_info /\
  (syncAll sync_stderr_fails (OutputPaths cfg_info ++ ["stderr"]) = [] <->
   sync_stderr_fails "stderr" = None /\
   forall p, In p (OutputPaths cfg_info) -> sync_stderr_fails p = None).
Proof.
  split; [reflexivity|].
  apply (New_Sync sync_stderr_fails cfg_info st0 st_info 0 None). reflexivity.
Defined.

(** X14: the instances derived by [With] (with any arguments) and by
    [Named] share the sinks of the receiver: [Sync] through the derived
    instance syncs the same sinks, with the same result, as [Sync] through
    the receiver. *)
Theorem Sync_derived (sync : string -> option error) (s : State) (l : nat)
        (z : zap.Logger) (args : list any) (n : string) :
  nth_error (heap s) l = Some z ->
  (exists l1 s1,
      With (Some l) args s = Ret (Some l1) s1 /\
      Sync sync (Some l1) s1 = Ret (syncAll sync (zap.outputPaths z)) s1 /\
      Sync sync (Some l) s1 = Ret (syncAll sync (zap.outputPaths z)) s1) /\
  (exists l1 s1,
      Named (Some l) n s = Ret (Some l1) s1 /\
      Sync sync (Some l1) s1 = Ret (syncAll sync (zap.outputPaths z)) s1 /\
      Sync sync (Some l) s1 = Ret (syncAll sync (zap.outputPaths z)) s1).
Proof.
  intros Hz.
  assert (Hlt : (l < List.length (heap s))%nat)
    by (apply nth_error_Some; congruence).
  split.
  - destruct (With_object s l z args Hz) as (fields & s1 & E & _).
    eexists _, _. split; [exact E|].
    unfold Sync, bind, deref. cbn [heap set_heap].
    rewrite nth_error_snoc, nth_error_app1 by exact Hlt. rewrite Hz.
    destruct (zap_With_keeps z fields) as (_ & -> & _).
    split; reflexivity.
  - eexists _, _.
    split; [unfold Named, bind, deref; rewrite Hz; reflexivity|].
    unfold Sync, bind, deref. cbn [heap set_heap].
    rewrite nth_error_snoc, nth_error_app1 by exact Hlt. rewrite Hz.
    assert (K : zap.outputPaths (zap.Named z n) = zap.outputPaths z)
      by (unfold zap.Named; destruct (n =? ""); reflexivity).
    rewrite K. split; reflexivity.
Qed.

Lemma Sync_derived_witness :
  nth_error (heap st_info) 0 = Some (newLogger cfg_info zapcore.InfoLevel 0) /\
  (exists l1 s1,
      With (Some 0) [AString "k"; AInt 1] st_info = Ret (Some l1) s1 /\
      Sync sync_stderr_fails (Some l1) s1 =
        Ret (syncAll sync_stderr_fails
                     (zap.outputPaths (newLogger cfg_info zapcore.InfoLevel 0))) s1 /\
      Sync sync_stderr_fails (Some 0) s1 =
        Ret (syncAll sync_stderr_fails
                     (zap.outputPaths (newLogger cfg_info zapcore.InfoLevel 0))) s1) /\
  (exists l1 s1,
      Named (Some 0) "http" st_info = Ret (Some l1) s1 /\
      Sync sync_stderr_fails (Some l1) s1 =
        Ret (syncAll sync_stderr_fails
                     (zap.outputPaths (newLogger cfg_info zapcore.InfoLevel 0))) s1 /\
      Sync sync_stderr_fails (Some 0) s1 =
        Ret (syncAll sync_stderr_fails
                     (zap.outputPaths (newLogger cfg_info zapcore.InfoLevel 0))) s1).
Proof.
  split; [reflexivity|].
  apply (Sync_derived sync_stderr_fails st_info 0
                      (newLogger cfg_info zapcore.InfoLevel 0)).
  reflexivity.
Defined.

(** ** The interceptors with any logger *)

(** A call below the dpanic level whose arguments sweeten to [fields]
    without a report, on any logger, sampling or not: it returns, and
    writes the record of the call or nothing. *)
Lemma log_at_most_one (z : zap.Logger) (lvl : zapcore.Level) (msg : string)
      (kv : list any) (fields : list zapcore.Field) (s : State) :
  (zapcore.Level_toZ lvl < zapcore.Level_toZ zapcore.DPanicLevel)%Z ->
  (forall s', SugaredLogger.sweetenFields z kv s' = Ret fields s') ->
  exists s',
    SugaredLogger.log z lvl msg kv s = Ret tt s' /\
    heap s' = heap s /\ clock s' = clock s /\
    (written s' = written s \/
     written s' = written s ++ [recordOf z lvl (clock s) msg fields]).
Proof.
  intros Hl Hk.
  unfold SugaredLogger.log, bind, zapfx.check.
  destruct (zapcore.Enabled (zap.level z) lvl) eqn:He.
  - destruct (zap.sampling z) as [sc|].
    + destruct (zapfx.sample sc (zap.core z) lvl msg (clock s) (counters s))
        as [[|] cs] eqn:Hsm;
        destruct lvl; simpl in Hl; try lia; simpl; rewrite ?Hsm; simpl;
        rewrite ?Hk; eexists; (split; [reflexivity|]);
        (split; [reflexivity|]); (split; [reflexivity|]);
        first [left; reflexivity | right; reflexivity].
    + destruct lvl; simpl in Hl; try lia; simpl; rewrite Hk;
        eexists; (split; [reflexivity|]);
        (split; [reflexivity|]); (split; [reflexivity|]); right; reflexivity.
  - destruct lvl; simpl in Hl; try lia; simpl;
      eexists; (split; [reflexivity|]);
      (split; [reflexivity|]); (split; [reflexivity|]); left; reflexivity.
Qed.

(** The loop over the errors with any logger: it returns, and writes at
    most one record per error, each the Error record of one of them. *)
Lemma forEach_Errorw_any (log : nat) (z : zap.Logger) (kv : list any)
      (fields : list zapcore.Field) :
  (forall s', SugaredLogger.sweetenFields z kv s' = Ret fields s') ->
  forall (es : list string) (s : State),
    nth_error (heap s) log = Some z ->
    exists s' new,
      forEach es (fun e => Errorw (Some log) e kv) s = Ret tt s' /\
      heap s' = heap s /\ clock s' = clock s /\
      written s' = written s ++ new /\
      (List.length new <= List.length es)%nat /\
      Forall (fun r => exists e, In e es /\
                                 r = recordOf z zapcore.ErrorLevel (clock s) e fields)
             new.
Proof.
  intros Hk. induction es as [|e es IH]; intros s Hz.
  - exists s, []. simpl. repeat split; [now rewrite app_nil_r | lia | constructor].
  - assert (HE : Errorw (Some log) e kv s =
                 SugaredLogger.log z zapcore.ErrorLevel e kv s)
      by (unfold Errorw, bind, deref; rewrite Hz; reflexivity).
    simpl. unfold bind at 1. rewrite HE.
    destruct (log_at_most_one z zapcore.ErrorLevel e kv fields s)
      as (s1 & -> & Hh & Hc & Hw); [simpl; lia | exact Hk |].
    cbv beta iota.
    destruct (IH s1) as (s2 & new & -> & Hh2 & Hc2 & Hw2 & Hn & Hf);
      [rewrite Hh; exact Hz|].
    assert (Hf' : Forall (fun r => exists e0, In e0 (e :: es) /\
                    r = recordOf z zapcore.ErrorLevel (clock s) e0 fields) new).
    { rewrite Forall_forall in *. intros r Hr.
      destruct (Hf r Hr) as (e0 & Hin & ->).
      exists e0. split; [now right | now rewrite Hc]. }
    destruct Hw as [Hw|Hw].
    + exists s2, new. repeat split; try congruence; [simpl; lia | exact Hf'].
    + exists s2, (recordOf z zapcore.ErrorLevel (clock s) e fields :: new).
      split; [reflexivity|]. split; [congruence|]. split; [congruence|].
      split; [rewrite Hw2, Hw, <- app_assoc; reflexivity|].
      split; [simpl; lia|].
      constructor; [|exact Hf'].
      exists e. split; [now left | reflexivity].
Qed.

(** What the interceptor adds to the sinks with any logger. *)
Lemma GinLogger_adds (log : nat) (z : zap.Logger)
      (Next : gin.Context -> M gin.Context) (c c' : gin.Context) (s s1 : State) :
  Next c s = Ret c' s1 ->
  nth_error (heap s1) log = Some z ->
  exists s2 new,
    GinLogger (Some log) Next c s = Ret c' s2 /\
    heap s2 = heap s1 /\ clock s2 = clock s1 /\
    written s2 = written s1 ++ new /\
    (List.length new <= Nat.max 1 (List.length (gin.Errors c')))%nat /\
    Forall (httpRecord z c c' (clock s) (clock s1)) new.
Proof.
  intros HN Hz.
  unfold GinLogger, bind at 1. unfold time_Now at 1.
  unfold bind at 1. rewrite HN.
  unfold bind at 1. unfold time_Now at 1.
  unfold httpRecord.
  destruct (gin.Errors c') as [|e es] eqn:He.
  - simpl. unfold bind at 1. unfold Infow, bind, deref. rewrite Hz.
    unfold SugaredLogger.Infow.
    destruct (log_at_most_one z zapcore.InfoLevel "HTTP request"
                [AString "status"; AInt (gin.Status c');
                 AString "method"; AString (gin.Method (gin.Request_ c'));
                 AString "path"; AString (gin.Path (gin.URL_ (gin.Request_ c)));
                 AString "query"; AString (gin.RawQuery (gin.URL_ (gin.Request_ c)));
                 AString "ip"; AString (gin.ClientIP c');
                 AString "user-agent"; AString (gin.UserAgent (gin.Request_ c'));
                 AString "latency"; ADuration (clock s1 - clock s)]
                (httpFields c' (gin.Path (gin.URL_ (gin.Request_ c)))
                            (gin.RawQuery (gin.URL_ (gin.Request_ c)))
                            (clock s1 - clock s)) s1)
      as (s2 & -> & Hh & Hc & Hw); [simpl; lia | reflexivity |].
    destruct Hw as [Hw|Hw].
    + exists s2, []. repeat split; try assumption;
        [now rewrite app_nil_r | simpl; lia | constructor].
    + exists s2, [recordOf z zapcore.InfoLevel (clock s1) "HTTP request"
                    (httpFields c' (gin.Path (gin.URL_ (gin.Request_ c)))
                                (gin.RawQuery (gin.URL_ (gin.Request_ c)))
                                (clock s1 - clock s))].
      repeat split; try assumption; [simpl; lia|].
      constructor; [reflexivity | constructor].
  - change (Nat.ltb 0 (List.length (e :: es))) with true. cbv iota.
    unfold bind at 1.
    destruct (forEach_Errorw_any log z
                [AString "status"; AInt (gin.Status c');
                 AString "method"; AString (gin.Method (gin.Request_ c'));
                 AString "path"; AString (gin.Path (gin.URL_ (gin.Request_ c)));
                 AString "query"; AString (gin.RawQuery (gin.URL_ (gin.Request_ c)));
                 AString "ip"; AString (gin.ClientIP c');
                 AString "user-agent"; AString (gin.UserAgent (gin.Request_ c'));
                 AString "latency"; ADuration (clock s1 - clock s)]
                (httpFields c' (gin.Path (gin.URL_ (gin.Request_ c)))
                            (gin.RawQuery (gin.URL_ (gin.Request_ c)))
                            (clock s1 - clock s))
                (fun _ => eq_refl) (gin.Errors_Errors (e :: es)) s1 Hz)
      as (s2 & new & E & Hh & Hc & Hw & Hn & Hf).
    rewrite E.
    exists s2, new. split; [reflexivity|].
    repeat split; try assumption.
    + unfold gin.Errors_Errors in Hn. rewrite length_map in Hn. lia.
    + rewrite Forall_forall in *. intros r Hr.
      destruct (Hf r Hr) as (m & Hin & ->).
      unfold gin.Errors_Errors in Hin. apply in_map_iff in Hin as (e0 & <- & Hin).
      exists e0. now split.
Qed.

(** X15: the HTTP interceptor only observes, with any logger (a sampling
    one included): when the chain returns, the interceptor returns the
    context as the chain left it, changes neither the heap nor the clock nor
    what was written before, and adds at most one record when the chain left
    no error and at most one per error otherwise; the records added are at
    info level in the first case and at error level in the second, never
    mixed. *)
Theorem GinLogger_any_logger (log : nat) (z : zap.Logger)
        (Next : gin.Context -> M gin.Context) (c c' : gin.Context) (s s1 : State) :
  Next c s = Ret c' s1 ->
  nth_error (heap s1) log = Some z ->
  exists s2 new,
    GinLogger (Some log) Next c s = Ret c' s2 /\
    heap s2 = heap s1 /\ clock s2 = clock s1 /\
    written s2 = written s1 ++ new /\
    (List.length new <= Nat.max 1 (List.length (gin.Errors c')))%nat /\
    Forall (fun r =>
              zapcore.ELevel (zapcore.Ent r) =
              match gin.Errors c' with
              | [] => zapcore.InfoLevel
              | _ => zapcore.ErrorLevel
              end) new.
Proof.
  intros HN Hz.
  destruct (GinLogger_adds log z Next c c' s s1 HN Hz)
    as (s2 & new & E & Hh & Hc & Hw & Hn & Hf).
  exists s2, new. repeat (split; [assumption|]).
  rewrite Forall_forall in *. intros r Hr. specialize (Hf r Hr).
  unfold httpRecord in Hf.
  destruct (gin.Errors c').
  - now subst r.
  - destruct Hf as (e0 & _ & ->). reflexivity.
Qed.

(** The sampling logger of [NewDefault] and a chain that attaches an error. *)
Lemma GinLogger_any_logger_witness :
  (exists c' s1 z,
      chain_fails req_foo st_default = Ret c' s1 /\
      nth_error (heap s1) 0 = Some z /\
      zap.sampling z <> None) /\
  exists c' s2 new,
    GinLogger (Some 0) chain_fails req_foo st_default = Ret c' s2 /\
    heap s2 = heap st_default /\
    written s2 = written st_default ++ new /\
    (List.length new <= Nat.max 1 (List.length (gin.Errors c')))%nat /\
    Forall (fun r => zapcore.ELevel (zapcore.Ent r) = zapcore.ErrorLevel) new.
Proof.
  split; [eexists _, _, _; split; [reflexivity|]; split; [reflexivity | discriminate]|].
  destruct (GinLogger_any_logger 0 _ chain_fails req_foo _ st_default _
                                 eq_refl eq_refl)
    as (s2 & new & E & Hh & _ & Hw & Hn & Hf).
  eexists _, s2, new. split; [exact E|].
  split; [exact Hh|]. split; [exact Hw|]. split; [exact Hn | exact Hf].
Defined.

(** X16: every record the HTTP interceptor writes has, after the standing
    fields of the logger, the fields status, method, path, query, ip,
    user-agent and latency in this order: path and query are those of the
    request as it arrived, even when the chain rewrote the URL; status,
    method, ip and user agent are read after the chain ran; the latency is
    the time the chain took. *)
Theorem GinLogger_request_fields (log : nat) (z : zap.Logger)
        (Next : gin.Context -> M gin.Context) (c c' : gin.Context) (s s1 : State)
        (r : zapcore.LogRecord) :
  Next c s = Ret c' s1 ->
  nth_error (heap s1) log = Some z ->
  In r (skipn (List.length (written s1))
              (written (stateOf (GinLogger (Some log) Next c s)))) ->
  zapcore.Fields r =
    zap.context z ++
    [zap.Any "status" (AInt (gin.Status c'));
     zap.Any "method" (AString (gin.Method (gin.Request_ c')));
     zap.Any "path" (AString (gin.Path (gin.URL_ (gin.Request_ c))));
     zap.Any "query" (AString (gin.RawQuery (gin.URL_ (gin.Request_ c))));
     zap.Any "ip" (AString (gin.ClientIP c'));
     zap.Any "user-agent" (AString (gin.UserAgent (gin.Request_ c')));
     zap.Any "latency" (ADuration (clock s1 - clock s))].
Proof.
  intros HN Hz Hin.
  destruct (GinLogger_adds log z Next c c' s s1 HN Hz)
    as (s2 & new & E & _ & _ & Hw & _ & Hf).
  rewrite E in Hin. simpl in Hin. rewrite Hw, skipn_app_length in Hin.
  rewrite Forall_forall in Hf. specialize (Hf r Hin).
  unfold httpRecord in Hf.
  destruct (gin.Errors c').
  - now subst r.
  - destruct Hf as (e0 & _ & ->). reflexivity.
Qed.

(** A chain that rewrites the path to /internal: the record has /foo. *)
Lemma GinLogger_request_fields_witness :
  exists c' s1 r,
    chain_rewrites req_foo st_info = Ret c' s1 /\
    gin.Path (gin.URL_ (gin.Request_ c')) = "/internal" /\
    nth_error (heap s1) 0 = Some (newLogger cfg_info zapcore.InfoLevel 0) /\
    In r (skipn (List.length (written s1))
                (written (stateOf (GinLogger (Some 0) chain_rewrites req_foo st_info)))) /\
    zapcore.Fields r =
      zap.context (newLogger cfg_info zapcore.InfoLevel 0) ++
      [zap.Any "status" (AInt 200);
       zap.Any "method" (AString "GET");
       zap.Any "path" (AString "/foo");
       zap.Any "query" (AString "x=1");
       zap.Any "ip" (AString "10.0.0.1");
       zap.Any "user-agent" (AString "curl/8");
       zap.Any "latency" (ADuration 3)].
Proof.
  assert (Hin : In (recordOf (newLogger cfg_info zapcore.InfoLevel 0)
                             zapcore.InfoLevel 3 "HTTP request"
                             (httpFields req_foo "/foo" "x=1" 3))
                   (skipn (List.length (written (stateOf (chain_rewrites req_foo st_info))))
                          (written (stateOf (GinLogger (Some 0) chain_rewrites
                                                       req_foo st_info)))))
    by (left; reflexivity).
  eexists _, _, _.
  split; [reflexivity|]. split; [reflexivity|]. split; [reflexivity|].
  split; [exact Hin|].
  exact (GinLogger_request_fields 0 _ chain_rewrites req_foo _ st_info _ _
                                  eq_refl eq_refl Hin).
Defined.

(** X17: the RPC interceptor with any logger (a sampling one included):
    when the handler returns, the interceptor returns the handler's
    response and error, changes neither the heap nor the clock nor what was
    written before, and adds nothing or exactly the record of the call: at
    error level with method, duration and error when the handler failed, at
    info level with method and duration otherwise; the duration is the
    time the handler took. *)
Theorem GRPC_any_logger (log : nat) (z : zap.Logger)
        (ctx : context.Context) (req resp : any) (err : option error)
        (info : grpc.UnaryServerInfo) (handler : grpc.UnaryHandler) (s s1 : State) :
  handler ctx req s = Ret (resp, err) s1 ->
  nth_error (heap s1) log = Some z ->
  exists s2,
    GRPCLoggingInterceptor (Some log) ctx req info handler s = Ret (resp, err) s2 /\
    heap s2 = heap s1 /\ clock s2 = clock s1 /\
    (written s2 = written s1 \/
     written s2 = written s1 ++
       [match err with
        | Some e =>
          recordOf z zapcore.ErrorLevel (clock s1) "gRPC request failed"
            [zap.Any "method" (AString (grpc.FullMethod info));
             zap.Any "duration" (ADuration (clock s1 - clock s));
             zap.Any "error" (AError e)]
        | None =>
          recordOf z zapcore.InfoLevel (clock s1) "gRPC request"
            [zap.Any "method" (AString (grpc.FullMethod info));
             zap.Any "duration" (ADuration (clock s1 - clock s))]
        end]).
Proof.
  intros Hh Hz.
  unfold GRPCLoggingInterceptor.
  destruct err as [e|];
    cbv beta iota zeta delta [bind time_Now time_Since Errorw Infow deref];
    rewrite Hh; cbv beta iota; rewrite Hz.
  - unfold SugaredLogger.Errorw.
    destruct (log_at_most_one z zapcore.ErrorLevel "gRPC request failed"
                [AString "method"; AString (grpc.FullMethod info);
                 AString "duration"; ADuration (clock s1 - clock s);
                 AString "error"; AError e]
                [zap.Any "method" (AString (grpc.FullMethod info));
                 zap.Any "duration" (ADuration (clock s1 - clock s));
                 zap.Any "error" (AError e)] s1)
      as (s2 & -> & H1 & H2 & H3); [simpl; lia | reflexivity |].
    exists s2. repeat split; assumption.
  - unfold SugaredLogger.Infow.
    destruct (log_at_most_one z zapcore.InfoLevel "gRPC request"
                [AString "method"; AString (grpc.FullMethod info);
                 AString "duration"; ADuration (clock s1 - clock s)]
                [zap.Any "method" (AString (grpc.FullMethod info));
                 zap.Any "duration" (ADuration (clock s1 - clock s))] s1)
      as (s2 & -> & H1 & H2 & H3); [simpl; lia | reflexivity |].
    exists s2. repeat split; assumption.
Qed.

(** The sampling logger of [NewDefault] and a handler that fails. *)
Lemma GRPC_any_logger_witness :
  (exists z,
      handler_fails None (AInt 1) st_default =
        Ret (ANil, Some (errApp "boom")) (stateOf (handler_fails None (AInt 1) st_default)) /\
      nth_error (heap (stateOf (handler_fails None (AInt 1) st_default))) 0 = Some z /\
      zap.sampling z <> None) /\
  exists s2,
    GRPCLoggingInterceptor (Some 0) None (AInt 1) info_svc handler_fails st_default =
      Ret (ANil, Some (errApp "boom")) s2 /\
    heap s2 = heap st_default.
Proof.
  split; [eexists; split; [reflexivity|]; split; [reflexivity | discriminate]|].
  destruct (GRPC_any_logger 0 _ None (AInt 1) ANil (Some (errApp "boom")) info_svc
                            handler_fails st_default _ eq_refl eq_refl)
    as (s2 & E & Hh & _).
  exists s2. split; [exact E | exact Hh].
Defined.

(** X18: the HTTP interceptor does not recover and does not log when the
    chain does not return: a panic of the chain, or the exit of the
    process, passes through with the state as the chain left it.  With a
    nil logger the chain still runs first, and the interceptor then
    panics. *)
Theorem GinLogger_failures (log : ptr) (Next : gin.Context -> M gin.Context)
        (c c' : gin.Context) (s s1 : State) :
  (Next c s = Panic s1 -> GinLogger log Next c s = Panic s1) /\
  (Next c s = Exit s1 -> GinLogger log Next c s = Exit s1) /\
  (Next c s = Ret c' s1 -> GinLogger nil Next c s = Panic s1).
Proof.
  unfold GinLogger, bind, time_Now.
  split; [|split]; intros ->; try reflexivity.
  destruct (gin.Errors c') as [|e es]; reflexivity.
Qed.

Lemma GinLogger_failures_witness :
  chain_panics req_foo st_info = Panic st_info /\
  GinLogger (Some 0) chain_panics req_foo st_info = Panic st_info.
Proof.
  split; [reflexivity|].
  exact (proj1 (GinLogger_failures (Some 0) chain_panics req_foo req_foo
                                   st_info st_info) eq_refl).
Defined.

(** X19: the RPC interceptor does not recover and does not log when the
    handler does not return: a panic of the handler, or the exit of the
    process, passes through with the state as the handler left it.  With a
    nil logger the handler still runs first, and the interceptor then
    panics instead of returning the handler's response. *)
Theorem GRPC_failures (log : ptr) (ctx : context.Context) (req resp : any)
        (err : option error) (info : grpc.UnaryServerInfo)
        (handler : grpc.UnaryHandler) (s s1 : State) :
  (handler ctx req s = Panic s1 ->
   GRPCLoggingInterceptor log ctx req info handler s = Panic s1) /\
  (handler ctx req s = Exit s1 ->
   GRPCLoggingInterceptor log ctx req info handler s = Exit s1) /\
  (handler ctx req s = Ret (resp, err) s1 ->
   GRPCLoggingInterceptor nil ctx req info handler s = Panic s1).
Proof.
  unfold GRPCLoggingInterceptor, bind, time_Now.
  split; [|split]; intros ->; try reflexivity.
  destruct err; reflexivity.
Qed.

Lemma GRPC_failures_witness :
  handler_panics None (AInt 1) st_info = Panic st_info /\
  GRPCLoggingInterceptor (Some 0) None (AInt 1) info_svc handler_panics st_info =
    Panic st_info.
Proof.
  split; [reflexivity|].
  exact (proj1 (GRPC_failures (Some 0) None (AInt 1) ANil None info_svc
                              handler_panics st_info st_info) eq_refl).
Defined.
